(** * BTHome BME680 beacon and CTS time application: encoding and poll cycle

    Shallow embedding of the three revisions of the sensor-to-advertisement
    pipeline found in the repository

    - [ThreePacket]: [app/bthome_bme680/src/sensor_handler.c], legacy
      advertising, three service-data buffers, delayable work item;
    - [Combined]: [app/bthome_bme680/src/sensor_handler.c], extended
      advertising, one 19-byte service-data buffer, delayable work item;
    - [SimpleLoop]: the [main.c] with the endless [for (;;)] loop and two
      service-data buffers;

    and of the Current Time Service callbacks of [app/time/src/main.c]
    ([TimeApp]).

    C integers are modelled as [Z] with the conversions written out.  A
    service-data buffer is a [list Z] of bytes, updated by index.  The
    sensor driver, the Bluetooth stack and the RTC are collaborators: what
    they return in one cycle is an input of the model, what the code asks
    of them is recorded in a trace of events. *)

From Stdlib Require Import ZArith Lia List.
From stdpp Require Import base list.

Local Open Scope Z_scope.

(** ** C integer arithmetic *)

Module CInt.

(** Reduction of an integer to a signed field of [w] bits (two's
    complement). *)
Definition wrap_signed (w z : Z) : Z :=
  (z + 2 ^ (w - 1)) mod 2 ^ w - 2 ^ (w - 1).

Definition to_int32 (z : Z) : Z := wrap_signed 32 z.
Definition to_int16 (z : Z) : Z := wrap_signed 16 z.
Definition to_uint16 (z : Z) : Z := z mod 2 ^ 16.
Definition to_uint8 (z : Z) : Z := z mod 2 ^ 8.

Definition int32_range (z : Z) : Prop := -2147483648 <= z <= 2147483647.
Definition int16_range (z : Z) : Prop := -32768 <= z <= 32767.
Definition uint16_range (z : Z) : Prop := 0 <= z <= 65535.
Definition uint8_range (z : Z) : Prop := 0 <= z <= 255.

(** [int] is 32 bits wide on the targets.  Signed overflow is undefined in
    ISO C; the model takes the two's complement result the targets
    produce.  [/] and [%] truncate towards zero ([Z.quot], [Z.rem]). *)
Definition add32 (a b : Z) : Z := to_int32 (a + b).
Definition mul32 (a b : Z) : Z := to_int32 (a * b).
Definition div32 (a b : Z) : Z := to_int32 (a ÷ b).
Definition rem32 (a b : Z) : Z := to_int32 (Z.rem a b).
Definition sub32 (a b : Z) : Z := to_int32 (a - b).

(** [(x >> k) & 0xFF] on a promoted [int]: arithmetic shift, then mask. *)
Definition shr_mask (x k : Z) : Z := Z.land (Z.shiftr x k) 255.

End CInt.

Import CInt.

(** ** Collaborators and effects *)

(** [struct sensor_value]: integer part and fractional part in millionths,
    both [int32_t]. *)
Record sensor_value : Type := SensorValue { val1 : Z; val2 : Z }.

Definition sensor_value_ok (v : sensor_value) : Prop :=
  int32_range (val1 v) /\ int32_range (val2 v).

Inductive sensor_channel : Type :=
| SENSOR_CHAN_AMBIENT_TEMP
| SENSOR_CHAN_PRESS
| SENSOR_CHAN_HUMIDITY
| SENSOR_CHAN_GAS_RES
| SENSOR_CHAN_IAQ
| SENSOR_CHAN_CO2
| SENSOR_CHAN_VOC.

#[global] Instance sensor_channel_eq_dec : EqDecision sensor_channel.
Proof. solve_decision. Defined.

(** What the collaborators answer during one cycle: the return code of
    [sensor_sample_fetch], the value [sensor_channel_get] leaves in its
    output argument for each channel, and the return code of the [n]-th
    advertising update of the cycle. *)
Record cycle_io : Type := CycleIo {
  fetch_rc : Z;
  chan_val : sensor_channel -> sensor_value;
  adv_rc : nat -> Z
}.

Definition cycle_io_ok (io : cycle_io) : Prop :=
  forall ch, sensor_value_ok (chan_val io ch).

Inductive k_timeout : Type :=
| K_NO_WAIT
| K_MSEC_BT_GAP_ADV_SLOW_INT_MIN
| K_SECONDS (s : Z)
| K_MINUTES (m : Z).

Inductive ad_id : Type := AD_TEMP_HUM | AD_PRESS_GAS | AD_VOC | AD_COMBINED.

Inductive log_msg : Type :=
| LogFetchFailed (err : Z)
| LogInvalidValues
| LogReadings
| LogUpdateFailed (ad : ad_id) (err : Z).

(** Calls into the kernel and the Bluetooth stack, in program order.  An
    advertising update carries the service data the stack reads at the
    call. *)
Inductive event : Type :=
| EvLog (m : log_msg)
| EvAdvUpdate (ad : ad_id) (service_data : list Z)
| EvSleep (t : k_timeout)
| EvSchedule (t : k_timeout).

(** State and trace threaded through a handler. *)
Module Prog.
Section WithState.
Context {S : Type}.

Definition prog (A : Type) : Type := S -> A * S * list event.

Definition ret {A} (a : A) : prog A := fun s => (a, s, []).

Definition bind {A B} (m : prog A) (k : A -> prog B) : prog B :=
  fun s =>
    let '(a, s1, t1) := m s in
    let '(b, s2, t2) := k a s1 in
    (b, s2, t1 ++ t2).

Definition emit (e : event) : prog unit := fun s => (tt, s, [e]).
Definition modify (f : S -> S) : prog unit := fun s => (tt, f s, []).
Definition gets {A} (f : S -> A) : prog A := fun s => (f s, s, []).

Definition final_state {A} (r : A * S * list event) : S := snd (fst r).
Definition trace {A} (r : A * S * list event) : list event := snd r.
End WithState.
Arguments prog : clear implicits.
End Prog.

Import Prog.

Declare Scope prog_scope.
Delimit Scope prog_scope with prog.
Notation "x <- c1 ;; c2" := (bind c1 (fun x => c2))
  (at level 100, c1 at next level, right associativity) : prog_scope.
Notation "c1 ;; c2" := (bind c1 (fun _ => c2))
  (at level 100, right associativity) : prog_scope.

(** [if (err)] on a C [int]. *)
Definition c_true (z : Z) : bool := negb (z =? 0).

(** [buf[idx] = v] on a [uint8_t] array: the value is converted to
    [uint8_t]; every index the code uses is a constant below the array
    length. *)
Definition store_u8 (buf : list Z) (idx : nat) (v : Z) : list Z :=
  <[idx := to_uint8 v]> buf.

(** Modelled from the spec: Zephyr's [BT_UUID_16_ENCODE] macro is not part of
    the repository; the wire layout of the spec puts the service-id low byte
    first, then the high byte. *)
Definition BT_UUID_16_ENCODE (w16 : Z) : list Z :=
  [Z.land w16 255; shr_mask w16 8].

(** The bytes of a buffer at given offsets. *)
Definition has_bytes (buf : list Z) (fixed : list (nat * Z)) : Prop :=
  Forall (fun p => buf !! fst p = Some (snd p)) fixed.

(** ** The scaled values

    The expressions are the same text in every revision that has them. *)
Module Encode.

(** [int16_t temp_scaled = temp.val1 * 100 + temp.val2 / 10000;] *)
Definition temp_scaled (temp : sensor_value) : Z :=
  to_int16 (add32 (mul32 (val1 temp) 100) (div32 (val2 temp) 10000)).

(** [int16_t humidity_scaled = humidity.val1 * 100 + humidity.val2 / 10000;] *)
Definition humidity_scaled (humidity : sensor_value) : Z :=
  to_int16 (add32 (mul32 (val1 humidity) 100) (div32 (val2 humidity) 10000)).

(** [int32_t pressure_scaled = (press.val1 / 100) * 100 +
      (press.val1 % 100 + press.val2 / 1000000) / 10;]
    (both work-queue revisions) *)
Definition pressure_scaled (press : sensor_value) : Z :=
  add32 (mul32 (div32 (val1 press) 100) 100)
        (div32 (add32 (rem32 (val1 press) 100) (div32 (val2 press) 1000000)) 10).

(** [int32_t pressure_scaled = press.val1 * 1000 + press.val2 / 10000;]
    (the endless-loop revision) *)
Definition pressure_scaled_loop (press : sensor_value) : Z :=
  add32 (mul32 (val1 press) 1000) (div32 (val2 press) 10000).

(** [uint16_t voc_scaled = voc.val1 * 100 + voc.val2 / 10000;] *)
Definition voc_scaled (voc : sensor_value) : Z :=
  to_uint16 (add32 (mul32 (val1 voc) 100) (div32 (val2 voc) 10000)).

(** The [int] expression [co2.val1 + (co2.val2 / 1000000)]. *)
Definition co2_sum (co2 : sensor_value) : Z :=
  add32 (val1 co2) (div32 (val2 co2) 1000000).

(** [uint16_t co2_scaled = co2.val1 + (co2.val2 / 1000000);] *)
Definition co2_scaled (co2 : sensor_value) : Z :=
  to_uint16 (co2_sum co2).

End Encode.

(** The formulas in the words of the specification, over the integers. *)
Module SpecFormula.

(** [scaled = i*100 + f/10000], truncating division. *)
Definition centi (v : sensor_value) : Z := val1 v * 100 + val2 v ÷ 10000.

(** [scaled = (i/100)*100 + ((i%100) + f/1_000_000)/10]. *)
Definition pressure_two_stage (v : sensor_value) : Z :=
  (val1 v ÷ 100) * 100 + (Z.rem (val1 v) 100 + val2 v ÷ 1000000) ÷ 10.

(** The formula of the endless-loop revision, as its source has it:
    [press.val1 * 1000 + press.val2 / 10000]. *)
Definition pressure_loop (v : sensor_value) : Z :=
  val1 v * 1000 + val2 v ÷ 10000.

(** [scaled = i + f/1_000_000]. *)
Definition co2_units (v : sensor_value) : Z := val1 v + val2 v ÷ 1000000.

(** Little-endian bytes of a value. *)
Definition byte0 (x : Z) : Z := Z.land x 255.
Definition byte1 (x : Z) : Z := Z.land (Z.shiftr x 8) 255.
Definition byte2 (x : Z) : Z := Z.land (Z.shiftr x 16) 255.

End SpecFormula.

(** Running a handler once per scheduled cycle, each with its own answers of
    the collaborators. *)
Fixpoint run_cycles {S : Type} (handler : cycle_io -> prog S unit)
    (ios : list cycle_io) : prog S unit :=
  match ios with
  | [] => ret tt
  | io :: rest => (handler io ;; run_cycles handler rest)%prog
  end.

(** ** Revision with three service-data buffers (legacy advertising) *)

Module ThreePacket.

Definition SERVICE_UUID : Z := 0xFCD2.

Definition SERVICE_DATA_TEMP_HUM_LEN : nat := 9.
Definition SERVICE_DATA_PRESS_GAS_LEN : nat := 7.
Definition SERVICE_DATA_VOC_LEN : nat := 9.

Definition IDX_TEMPL : nat := 4.
Definition IDX_TEMPH : nat := 5.
Definition IDX_HUMIDL : nat := 7.
Definition IDX_HUMIDH : nat := 8.

Definition IDX_PRESS_LOW : nat := 4.
Definition IDX_PRESS_MID : nat := 5.
Definition IDX_PRESS_HIGH : nat := 6.

Definition IDX_VOC_LOW : nat := 4.
Definition IDX_VOC_HIGH : nat := 5.
Definition IDX_CO2_HIGH : nat := 7.
Definition IDX_CO2_LOW : nat := 8.

Definition SENSOR_WORK_DELAY : k_timeout := K_SECONDS 3.

(** The three file-scope arrays. *)
Record bufs : Type := Bufs {
  service_data_temp_hum : list Z;
  service_data_press : list Z;
  service_data_voc_co2 : list Z
}.

Definition initial : bufs := {|
  service_data_temp_hum :=
    BT_UUID_16_ENCODE SERVICE_UUID ++ [0x40; 0x02; 0x00; 0x00; 0x03; 0x00; 0x00];
  service_data_press :=
    BT_UUID_16_ENCODE SERVICE_UUID ++ [0x40; 0x04; 0x00; 0x00; 0x00];
  service_data_voc_co2 :=
    BT_UUID_16_ENCODE SERVICE_UUID ++ [0x40; 0x13; 0x00; 0x00; 0x12; 0x00; 0x00]
|}.

Definition wf (b : bufs) : Prop :=
  length (service_data_temp_hum b) = SERVICE_DATA_TEMP_HUM_LEN /\
  length (service_data_press b) = SERVICE_DATA_PRESS_GAS_LEN /\
  length (service_data_voc_co2 b) = SERVICE_DATA_VOC_LEN.

Definition set_temp_hum (idx : nat) (v : Z) : prog bufs unit :=
  modify (fun b => {| service_data_temp_hum := store_u8 (service_data_temp_hum b) idx v;
                      service_data_press := service_data_press b;
                      service_data_voc_co2 := service_data_voc_co2 b |}).

Definition set_press (idx : nat) (v : Z) : prog bufs unit :=
  modify (fun b => {| service_data_temp_hum := service_data_temp_hum b;
                      service_data_press := store_u8 (service_data_press b) idx v;
                      service_data_voc_co2 := service_data_voc_co2 b |}).

Definition set_voc_co2 (idx : nat) (v : Z) : prog bufs unit :=
  modify (fun b => {| service_data_temp_hum := service_data_temp_hum b;
                      service_data_press := service_data_press b;
                      service_data_voc_co2 := store_u8 (service_data_voc_co2 b) idx v |}).

(** [bt_le_adv_update_data(ad, ...)]: the stack takes the service data
    the [bt_data] entry points to; [n] counts the updates of the cycle. *)
Definition bt_le_adv_update_data (io : cycle_io) (n : nat) (ad : ad_id)
    (sd : bufs -> list Z) : prog bufs Z :=
  (d <- gets sd ;; emit (EvAdvUpdate ad d) ;; ret (adv_rc io n))%prog.

(** [sensor_work_handler]: a failed fetch logs and schedules, and control
    then continues with the statements below the [if]. *)
Definition sensor_work_handler (io : cycle_io) : prog bufs unit :=
  (let err := fetch_rc io in
   (if c_true err then
      emit (EvLog (LogFetchFailed err)) ;;
      emit (EvSchedule SENSOR_WORK_DELAY)
    else ret tt) ;;
   let temp := chan_val io SENSOR_CHAN_AMBIENT_TEMP in
   let press := chan_val io SENSOR_CHAN_PRESS in
   let humidity := chan_val io SENSOR_CHAN_HUMIDITY in
   let iaq := chan_val io SENSOR_CHAN_IAQ in
   let co2 := chan_val io SENSOR_CHAN_CO2 in
   let voc := chan_val io SENSOR_CHAN_VOC in
   emit (EvLog LogReadings) ;;
   let temp_scaled := Encode.temp_scaled temp in
   set_temp_hum IDX_TEMPH (shr_mask temp_scaled 8) ;;
   set_temp_hum IDX_TEMPL (Z.land temp_scaled 255) ;;
   let humidity_scaled := Encode.humidity_scaled humidity in
   set_temp_hum IDX_HUMIDH (shr_mask humidity_scaled 8) ;;
   set_temp_hum IDX_HUMIDL (Z.land humidity_scaled 255) ;;
   let pressure_scaled := Encode.pressure_scaled press in
   set_press IDX_PRESS_LOW (Z.land pressure_scaled 255) ;;
   set_press IDX_PRESS_MID (shr_mask pressure_scaled 8) ;;
   set_press IDX_PRESS_HIGH (shr_mask pressure_scaled 16) ;;
   let voc_scaled := Encode.voc_scaled voc in
   set_voc_co2 IDX_VOC_LOW (Z.land voc_scaled 255) ;;
   set_voc_co2 IDX_VOC_HIGH (shr_mask voc_scaled 8) ;;
   let co2_scaled := Encode.co2_scaled co2 in
   set_voc_co2 IDX_CO2_HIGH (shr_mask co2_scaled 8) ;;
   set_voc_co2 IDX_CO2_LOW (Z.land co2_scaled 255) ;;
   err <- bt_le_adv_update_data io 0 AD_TEMP_HUM service_data_temp_hum ;;
   (if c_true err then emit (EvLog (LogUpdateFailed AD_TEMP_HUM err)) else ret tt) ;;
   emit (EvSleep K_MSEC_BT_GAP_ADV_SLOW_INT_MIN) ;;
   err <- bt_le_adv_update_data io 1 AD_PRESS_GAS service_data_press ;;
   (if c_true err then emit (EvLog (LogUpdateFailed AD_PRESS_GAS err)) else ret tt) ;;
   emit (EvSleep K_MSEC_BT_GAP_ADV_SLOW_INT_MIN) ;;
   err <- bt_le_adv_update_data io 2 AD_VOC service_data_voc_co2 ;;
   (if c_true err then emit (EvLog (LogUpdateFailed AD_VOC err)) else ret tt) ;;
   emit (EvSchedule SENSOR_WORK_DELAY))%prog.

(** Service id, format byte and tag bytes of the three initializers, with
    their offsets. *)
Definition header_tags_temp_hum : list (nat * Z) :=
  [(0%nat, 0xD2); (1%nat, 0xFC); (2%nat, 0x40); (3%nat, 0x02); (6%nat, 0x03)].
Definition header_tags_press : list (nat * Z) :=
  [(0%nat, 0xD2); (1%nat, 0xFC); (2%nat, 0x40); (3%nat, 0x04)].
Definition header_tags_voc_co2 : list (nat * Z) :=
  [(0%nat, 0xD2); (1%nat, 0xFC); (2%nat, 0x40); (3%nat, 0x13); (6%nat, 0x12)].

(** The value offsets of each buffer. *)
Definition temp_hum_offsets : list nat := [IDX_TEMPL; IDX_TEMPH; IDX_HUMIDL; IDX_HUMIDH].
Definition press_offsets : list nat := [IDX_PRESS_LOW; IDX_PRESS_MID; IDX_PRESS_HIGH].
Definition voc_co2_offsets : list nat :=
  [IDX_VOC_LOW; IDX_VOC_HIGH; IDX_CO2_HIGH; IDX_CO2_LOW].

(** The buffers after the eleven stores of [sensor_work_handler]. *)
Definition encoded (io : cycle_io) (b : bufs) : bufs :=
  let temp_scaled := Encode.temp_scaled (chan_val io SENSOR_CHAN_AMBIENT_TEMP) in
  let humidity_scaled := Encode.humidity_scaled (chan_val io SENSOR_CHAN_HUMIDITY) in
  let pressure_scaled := Encode.pressure_scaled (chan_val io SENSOR_CHAN_PRESS) in
  let voc_scaled := Encode.voc_scaled (chan_val io SENSOR_CHAN_VOC) in
  let co2_scaled := Encode.co2_scaled (chan_val io SENSOR_CHAN_CO2) in
  {| service_data_temp_hum :=
       store_u8 (store_u8 (store_u8 (store_u8 (service_data_temp_hum b)
         IDX_TEMPH (shr_mask temp_scaled 8))
         IDX_TEMPL (Z.land temp_scaled 255))
         IDX_HUMIDH (shr_mask humidity_scaled 8))
         IDX_HUMIDL (Z.land humidity_scaled 255);
     service_data_press :=
       store_u8 (store_u8 (store_u8 (service_data_press b)
         IDX_PRESS_LOW (Z.land pressure_scaled 255))
         IDX_PRESS_MID (shr_mask pressure_scaled 8))
         IDX_PRESS_HIGH (shr_mask pressure_scaled 16);
     service_data_voc_co2 :=
       store_u8 (store_u8 (store_u8 (store_u8 (service_data_voc_co2 b)
         IDX_VOC_LOW (Z.land voc_scaled 255))
         IDX_VOC_HIGH (shr_mask voc_scaled 8))
         IDX_CO2_HIGH (shr_mask co2_scaled 8))
         IDX_CO2_LOW (Z.land co2_scaled 255) |}.

End ThreePacket.

(** ** Revision with one combined service-data buffer (extended advertising) *)

Module Combined.

Definition SERVICE_UUID : Z := 0xfcd2.

Definition IDX_TEMP_L : nat := 4.
Definition IDX_TEMP_H : nat := 5.
Definition IDX_HUMID_L : nat := 7.
Definition IDX_HUMID_H : nat := 8.
Definition IDX_PRESS_L : nat := 10.
Definition IDX_PRESS_M : nat := 11.
Definition IDX_PRESS_H : nat := 12.
Definition IDX_VOC_L : nat := 14.
Definition IDX_VOC_H : nat := 15.
Definition IDX_CO2_L : nat := 17.
Definition IDX_CO2_H : nat := 18.

Definition SENSOR_WORK_DELAY : k_timeout := K_SECONDS 3.

(** [static uint8_t service_data_combined[19]] *)
Definition SERVICE_DATA_COMBINED_LEN : nat := 19.

Definition initial : list Z :=
  BT_UUID_16_ENCODE SERVICE_UUID ++
  [0x40; 0x02; 0x00; 0x00; 0x03; 0x00; 0x00; 0x04; 0x00; 0x00; 0x00;
   0x13; 0x00; 0x00; 0x12; 0x00; 0x00].

Definition wf (b : list Z) : Prop := length b = SERVICE_DATA_COMBINED_LEN.

Definition set_combined (idx : nat) (v : Z) : prog (list Z) unit :=
  modify (fun b => store_u8 b idx v).

(** [bt_le_ext_adv_set_data(adv_set, ad_combined, ...)] *)
Definition bt_le_ext_adv_set_data (io : cycle_io) (n : nat) : prog (list Z) Z :=
  (d <- gets (fun b => b) ;; emit (EvAdvUpdate AD_COMBINED d) ;; ret (adv_rc io n))%prog.

(** [if (iaq.val1 == 0 || co2.val1 < 0 || voc.val1 < 0)] *)
Definition readings_invalid (iaq co2 voc : sensor_value) : bool :=
  (val1 iaq =? 0) || (val1 co2 <? 0) || (val1 voc <? 0).

(** [sensor_work_handler]: both [goto reschedule] jumps skip to the final
    [k_work_schedule]. *)
Definition sensor_work_handler (io : cycle_io) : prog (list Z) unit :=
  (let err := fetch_rc io in
   (if c_true err then
      emit (EvLog (LogFetchFailed err))
    else
      let temp := chan_val io SENSOR_CHAN_AMBIENT_TEMP in
      let press := chan_val io SENSOR_CHAN_PRESS in
      let humidity := chan_val io SENSOR_CHAN_HUMIDITY in
      let iaq := chan_val io SENSOR_CHAN_IAQ in
      let co2 := chan_val io SENSOR_CHAN_CO2 in
      let voc := chan_val io SENSOR_CHAN_VOC in
      if readings_invalid iaq co2 voc then
        emit (EvLog LogInvalidValues)
      else
        emit (EvLog LogReadings) ;;
        let temp_scaled := Encode.temp_scaled temp in
        set_combined IDX_TEMP_H (shr_mask temp_scaled 8) ;;
        set_combined IDX_TEMP_L (Z.land temp_scaled 255) ;;
        let humidity_scaled := Encode.humidity_scaled humidity in
        set_combined IDX_HUMID_H (shr_mask humidity_scaled 8) ;;
        set_combined IDX_HUMID_L (Z.land humidity_scaled 255) ;;
        let pressure_scaled := Encode.pressure_scaled press in
        set_combined IDX_PRESS_L (Z.land pressure_scaled 255) ;;
        set_combined IDX_PRESS_M (shr_mask pressure_scaled 8) ;;
        set_combined IDX_PRESS_H (shr_mask pressure_scaled 16) ;;
        let voc_scaled := Encode.voc_scaled voc in
        set_combined IDX_VOC_L (Z.land voc_scaled 255) ;;
        set_combined IDX_VOC_H (shr_mask voc_scaled 8) ;;
        let co2_scaled := Encode.co2_scaled co2 in
        set_combined IDX_CO2_H (shr_mask co2_scaled 8) ;;
        set_combined IDX_CO2_L (Z.land co2_scaled 255) ;;
        err <- bt_le_ext_adv_set_data io 0 ;;
        (if c_true err then emit (EvLog (LogUpdateFailed AD_COMBINED err)) else ret tt)) ;;
   emit (EvSchedule SENSOR_WORK_DELAY))%prog.

(** The buffer after the eleven stores of [sensor_work_handler]. *)
Definition encoded (io : cycle_io) (b : list Z) : list Z :=
  let temp_scaled := Encode.temp_scaled (chan_val io SENSOR_CHAN_AMBIENT_TEMP) in
  let humidity_scaled := Encode.humidity_scaled (chan_val io SENSOR_CHAN_HUMIDITY) in
  let pressure_scaled := Encode.pressure_scaled (chan_val io SENSOR_CHAN_PRESS) in
  let voc_scaled := Encode.voc_scaled (chan_val io SENSOR_CHAN_VOC) in
  let co2_scaled := Encode.co2_scaled (chan_val io SENSOR_CHAN_CO2) in
  store_u8 (store_u8 (store_u8 (store_u8 (store_u8 (store_u8 (store_u8
  (store_u8 (store_u8 (store_u8 (store_u8 b
    IDX_TEMP_H (shr_mask temp_scaled 8))
    IDX_TEMP_L (Z.land temp_scaled 255))
    IDX_HUMID_H (shr_mask humidity_scaled 8))
    IDX_HUMID_L (Z.land humidity_scaled 255))
    IDX_PRESS_L (Z.land pressure_scaled 255))
    IDX_PRESS_M (shr_mask pressure_scaled 8))
    IDX_PRESS_H (shr_mask pressure_scaled 16))
    IDX_VOC_L (Z.land voc_scaled 255))
    IDX_VOC_H (shr_mask voc_scaled 8))
    IDX_CO2_H (shr_mask co2_scaled 8))
    IDX_CO2_L (Z.land co2_scaled 255).

(** The validation of one cycle's readings. *)
Definition invalid (io : cycle_io) : bool :=
  readings_invalid (chan_val io SENSOR_CHAN_IAQ) (chan_val io SENSOR_CHAN_CO2)
    (chan_val io SENSOR_CHAN_VOC).

(** Service id, format byte and tag bytes of the initializer, with their
    offsets. *)
Definition header_tags : list (nat * Z) :=
  [(0%nat, 0xD2); (1%nat, 0xFC); (2%nat, 0x40); (3%nat, 0x02); (6%nat, 0x03);
   (9%nat, 0x04); (13%nat, 0x13); (16%nat, 0x12)].

(** The value offsets of the combined buffer. *)
Definition value_offsets : list nat :=
  [IDX_TEMP_L; IDX_TEMP_H; IDX_HUMID_L; IDX_HUMID_H;
   IDX_PRESS_L; IDX_PRESS_M; IDX_PRESS_H;
   IDX_VOC_L; IDX_VOC_H; IDX_CO2_L; IDX_CO2_H].

End Combined.

(** ** Revision with the endless loop in [main] (two service-data buffers) *)

Module SimpleLoop.

Definition SERVICE_UUID : Z := 0xfcd2.

Definition SERVICE_DATA_TEMP_HUM_LEN : nat := 9.
Definition SERVICE_DATA_PRESS_GAS_LEN : nat := 7.

Definition IDX_TEMPL : nat := 4.
Definition IDX_TEMPH : nat := 5.
Definition IDX_HUMIDL : nat := 7.
Definition IDX_HUMIDH : nat := 8.
Definition IDX_PRESS_LOW : nat := 4.
Definition IDX_PRESS_MID : nat := 5.
Definition IDX_PRESS_HIGH : nat := 6.

Record bufs : Type := Bufs {
  service_data_temp_hum : list Z;
  service_data_press_gas : list Z
}.

Definition initial : bufs := {|
  service_data_temp_hum :=
    BT_UUID_16_ENCODE SERVICE_UUID ++ [0x40; 0x02; 0xc4; 0x00; 0x03; 0xbf; 0x13];
  service_data_press_gas :=
    BT_UUID_16_ENCODE SERVICE_UUID ++ [0x40; 0x04; 0x13; 0x8A; 0x01]
|}.

Definition wf (b : bufs) : Prop :=
  length (service_data_temp_hum b) = SERVICE_DATA_TEMP_HUM_LEN /\
  length (service_data_press_gas b) = SERVICE_DATA_PRESS_GAS_LEN.

Definition set_temp_hum (idx : nat) (v : Z) : prog bufs unit :=
  modify (fun b => {| service_data_temp_hum := store_u8 (service_data_temp_hum b) idx v;
                      service_data_press_gas := service_data_press_gas b |}).

Definition set_press_gas (idx : nat) (v : Z) : prog bufs unit :=
  modify (fun b => {| service_data_temp_hum := service_data_temp_hum b;
                      service_data_press_gas := store_u8 (service_data_press_gas b) idx v |}).

Definition bt_le_adv_update_data (io : cycle_io) (n : nat) (ad : ad_id)
    (sd : bufs -> list Z) : prog bufs Z :=
  (d <- gets sd ;; emit (EvAdvUpdate ad d) ;; ret (adv_rc io n))%prog.

(** One pass through the body of [for (;;)] in [main]; the return code of
    [sensor_sample_fetch] is not looked at. *)
Definition loop_body (io : cycle_io) : prog bufs unit :=
  (let temp := chan_val io SENSOR_CHAN_AMBIENT_TEMP in
   let press := chan_val io SENSOR_CHAN_PRESS in
   let humidity := chan_val io SENSOR_CHAN_HUMIDITY in
   let gas_res := chan_val io SENSOR_CHAN_GAS_RES in
   emit (EvLog LogReadings) ;;
   let temp_scaled := Encode.temp_scaled temp in
   set_temp_hum IDX_TEMPH (shr_mask temp_scaled 8) ;;
   set_temp_hum IDX_TEMPL (Z.land temp_scaled 255) ;;
   let humidity_scaled := Encode.humidity_scaled humidity in
   set_temp_hum IDX_HUMIDH (shr_mask humidity_scaled 8) ;;
   set_temp_hum IDX_HUMIDL (Z.land humidity_scaled 255) ;;
   let pressure_scaled := Encode.pressure_scaled_loop press in
   set_press_gas IDX_PRESS_LOW (Z.land pressure_scaled 255) ;;
   set_press_gas IDX_PRESS_MID (shr_mask pressure_scaled 8) ;;
   set_press_gas IDX_PRESS_HIGH (shr_mask pressure_scaled 16) ;;
   err <- bt_le_adv_update_data io 0 AD_TEMP_HUM service_data_temp_hum ;;
   (if c_true err then emit (EvLog (LogUpdateFailed AD_TEMP_HUM err)) else ret tt) ;;
   emit (EvSleep K_MSEC_BT_GAP_ADV_SLOW_INT_MIN) ;;
   err <- bt_le_adv_update_data io 1 AD_PRESS_GAS service_data_press_gas ;;
   (if c_true err then emit (EvLog (LogUpdateFailed AD_PRESS_GAS err)) else ret tt) ;;
   emit (EvSleep (K_MINUTES 5)))%prog.

(** The buffers after the seven stores of the loop body. *)
Definition encoded (io : cycle_io) (b : bufs) : bufs :=
  let temp_scaled := Encode.temp_scaled (chan_val io SENSOR_CHAN_AMBIENT_TEMP) in
  let humidity_scaled := Encode.humidity_scaled (chan_val io SENSOR_CHAN_HUMIDITY) in
  let pressure_scaled := Encode.pressure_scaled_loop (chan_val io SENSOR_CHAN_PRESS) in
  {| service_data_temp_hum :=
       store_u8 (store_u8 (store_u8 (store_u8 (service_data_temp_hum b)
         IDX_TEMPH (shr_mask temp_scaled 8))
         IDX_TEMPL (Z.land temp_scaled 255))
         IDX_HUMIDH (shr_mask humidity_scaled 8))
         IDX_HUMIDL (Z.land humidity_scaled 255);
     service_data_press_gas :=
       store_u8 (store_u8 (store_u8 (service_data_press_gas b)
         IDX_PRESS_LOW (Z.land pressure_scaled 255))
         IDX_PRESS_MID (shr_mask pressure_scaled 8))
         IDX_PRESS_HIGH (shr_mask pressure_scaled 16) |}.

End SimpleLoop.

(** A 16-bit field at the byte offsets [lo], [hi] of a buffer, and a 24-bit
    field at [lo], [mid], [hi], holding the little-endian bytes of [x]. *)
Definition holds_le16 (buf : list Z) (lo hi : nat) (x : Z) : Prop :=
  buf !! lo = Some (SpecFormula.byte0 x) /\ buf !! hi = Some (SpecFormula.byte1 x).

Definition holds_le24 (buf : list Z) (lo mid hi : nat) (x : Z) : Prop :=
  buf !! lo = Some (SpecFormula.byte0 x) /\
  buf !! mid = Some (SpecFormula.byte1 x) /\
  buf !! hi = Some (SpecFormula.byte2 x).

(** Header, tags and lengths of the three buffers. *)
Definition three_packet_layout (b : ThreePacket.bufs) : Prop :=
  ThreePacket.wf b /\
  has_bytes (ThreePacket.service_data_temp_hum b) ThreePacket.header_tags_temp_hum /\
  has_bytes (ThreePacket.service_data_press b) ThreePacket.header_tags_press /\
  has_bytes (ThreePacket.service_data_voc_co2 b) ThreePacket.header_tags_voc_co2.

(** Header, tags and length of the combined buffer. *)
Definition combined_layout (b : list Z) : Prop :=
  Combined.wf b /\ has_bytes b Combined.header_tags.

(** The calls that re-arm the cycle: [k_work_schedule] with
    [SENSOR_WORK_DELAY], and the 5 minute sleep that ends a pass of the
    endless loop. *)
Definition is_rearm (e : event) : bool :=
  match e with
  | EvSchedule (K_SECONDS 3) => true
  | EvSleep (K_MINUTES 5) => true
  | _ => false
  end.

Definition rearm_count (t : list event) : nat :=
  length (filter (fun e => is_rearm e = true) t).

(** ** Current Time Service callbacks ([app/time/src/main.c]) *)

Module TimeApp.

(** Modelled from the spec: [struct bt_cts_time_format] is declared in the
    Bluetooth stack's headers, not in the repository.  The fields are the
    ones the callbacks access; on the wire the year is an unsigned 16-bit
    field and the others are unsigned 8-bit fields. *)
Record bt_cts_time_format : Type := BtCtsTime {
  year : Z;
  mon : Z;
  mday : Z;
  hours : Z;
  min : Z;
  sec : Z;
  wday : Z;
  fractions256 : Z;
  reason : Z
}.

Definition cts_time_ok (t : bt_cts_time_format) : Prop :=
  uint16_range (year t) /\ uint8_range (mon t) /\ uint8_range (mday t) /\
  uint8_range (hours t) /\ uint8_range (min t) /\ uint8_range (sec t).

(** Modelled from the spec: [struct rtc_time] is declared in the RTC driver
    interface, not in the repository; all fields are [int], with the
    year counted from 1900, the month from 0 and the weekday from Sunday
    = 0. *)
Record rtc_time : Type := RtcTime {
  tm_sec : Z;
  tm_min : Z;
  tm_hour : Z;
  tm_mday : Z;
  tm_mon : Z;
  tm_year : Z;
  tm_wday : Z;
  tm_yday : Z;
  tm_isdst : Z;
  tm_nsec : Z
}.

(** The [struct rtc_time tm = { ... }] initializer of [cts_time_write];
    members without a designator are zero. *)
Definition rtc_time_of_cts (cts_time : bt_cts_time_format) : rtc_time :=
  {| tm_year := sub32 (year cts_time) 1900;
     tm_mon := sub32 (mon cts_time) 1;
     tm_mday := mday cts_time;
     tm_hour := hours cts_time;
     tm_min := min cts_time;
     tm_sec := sec cts_time;
     tm_wday := 0; tm_yday := 0; tm_isdst := 0; tm_nsec := 0 |}.

(** Two clock readings with the same calendar date and time of day. *)
Definition same_datetime (a b : rtc_time) : Prop :=
  tm_year a = tm_year b /\ tm_mon a = tm_mon b /\ tm_mday a = tm_mday b /\
  tm_hour a = tm_hour b /\ tm_min a = tm_min b /\ tm_sec a = tm_sec b.

Section Callbacks.
(** The RTC driver: [rtc_set_time] returns a code and the new device
    state, [rtc_get_time] a code and what it left in [tm]. *)
Context {rtc_dev : Type}.
Variable rtc_set_time : rtc_dev -> rtc_time -> Z * rtc_dev.
Variable rtc_get_time : rtc_dev -> Z * rtc_time.

Definition cts_time_write (cts_time : bt_cts_time_format) (rtc : rtc_dev)
    : Z * rtc_dev :=
  let tm := rtc_time_of_cts cts_time in
  rtc_set_time rtc tm.

(** [cts_time] is the caller's struct; it is returned as it was when the
    clock cannot be read. *)
Definition cts_time_read (cts_time : bt_cts_time_format) (rtc : rtc_dev)
    : Z * bt_cts_time_format :=
  let '(ret, tm) := rtc_get_time rtc in
  if ret <? 0 then (ret, cts_time)
  else
    (0, {| year := to_uint16 (add32 (tm_year tm) 1900);
           mon := to_uint8 (add32 (tm_mon tm) 1);
           mday := to_uint8 (tm_mday tm);
           hours := to_uint8 (tm_hour tm);
           min := to_uint8 (tm_min tm);
           sec := to_uint8 (tm_sec tm);
           wday := to_uint8 (add32 (rem32 (add32 (tm_wday tm) 7) 7) 1);
           fractions256 := fractions256 cts_time;
           reason := reason cts_time |}).
End Callbacks.

(** A clock that keeps the [struct rtc_time] it was last given and hands
    it back unchanged. *)
Definition register_set_time (rtc : rtc_time) (tm : rtc_time) : Z * rtc_time := (0, tm).
Definition register_get_time (rtc : rtc_time) : Z * rtc_time := (0, rtc).

Inductive weekday : Type :=
| Sunday | Monday | Tuesday | Wednesday | Thursday | Friday | Saturday.

(** The clock's native encoding, Sunday = 0. *)
Definition tm_wday_of (d : weekday) : Z :=
  match d with
  | Sunday => 0 | Monday => 1 | Tuesday => 2 | Wednesday => 3
  | Thursday => 4 | Friday => 5 | Saturday => 6
  end.

(** The outbound convention named in the comments of [cts_time_read]:
    1 = Monday, ..., 7 = Sunday. *)
Definition cts_wday_of (d : weekday) : Z :=
  match d with
  | Monday => 1 | Tuesday => 2 | Wednesday => 3 | Thursday => 4
  | Friday => 5 | Saturday => 6 | Sunday => 7
  end.

(** A clock reading on the given weekday. *)
Definition reading_on (d : weekday) : rtc_time :=
  {| tm_year := 125; tm_mon := 0; tm_mday := 1; tm_hour := 0; tm_min := 0;
     tm_sec := 0; tm_wday := tm_wday_of d; tm_yday := 0; tm_isdst := 0;
     tm_nsec := 0 |}.

End TimeApp.

(** The clock stores exactly the date and time written: whenever
    [rtc_set_time] accepted a [struct rtc_time] (code 0), every later
    successful [rtc_get_time] on the resulting device reads back its year,
    month, day of month, hours, minutes and seconds. *)
Definition clock_keeps_datetime {rtc_dev : Type}
    (rtc_set_time : rtc_dev -> TimeApp.rtc_time -> Z * rtc_dev)
    (rtc_get_time : rtc_dev -> Z * TimeApp.rtc_time) : Prop :=
  forall (rtc rtc' : rtc_dev) (tm tm' : TimeApp.rtc_time) (ret : Z),
    rtc_set_time rtc tm = (0, rtc') ->
    rtc_get_time rtc' = (ret, tm') -> 0 <= ret ->
    TimeApp.same_datetime tm' tm.

(** ** Inputs used in examples *)

Module Example.

(** The end-to-end sample of the specification; IAQ 50, gas resistance 0. *)
Definition sample (ch : sensor_channel) : sensor_value :=
  match ch with
  | SENSOR_CHAN_AMBIENT_TEMP => SensorValue 22 500000
  | SENSOR_CHAN_HUMIDITY => SensorValue 55 0
  | SENSOR_CHAN_PRESS => SensorValue 1013 250000
  | SENSOR_CHAN_VOC => SensorValue 10 0
  | SENSOR_CHAN_CO2 => SensorValue 450 0
  | SENSOR_CHAN_IAQ => SensorValue 50 0
  | SENSOR_CHAN_GAS_RES => SensorValue 0 0
  end.

(** The sample with one channel replaced. *)
Definition sample_with (c : sensor_channel) (v : sensor_value)
    (ch : sensor_channel) : sensor_value :=
  if decide (ch = c) then v else sample ch.

(** A cycle in which every collaborator succeeds. *)
Definition io_ok : cycle_io :=
  {| fetch_rc := 0; chan_val := sample; adv_rc := fun _ => 0 |}.

(** A cycle in which [sensor_sample_fetch] returns [-EIO]. *)
Definition io_fetch_failed : cycle_io :=
  {| fetch_rc := -5; chan_val := sample; adv_rc := fun _ => 0 |}.

(** A cycle whose IAQ reading is 0. *)
Definition io_iaq_zero : cycle_io :=
  {| fetch_rc := 0;
     chan_val := sample_with SENSOR_CHAN_IAQ (SensorValue 0 0);
     adv_rc := fun _ => 0 |}.

Definition io_with (c : sensor_channel) (v : sensor_value) : cycle_io :=
  {| fetch_rc := 0; chan_val := sample_with c v; adv_rc := fun _ => 0 |}.

(** 2025-03-09 14:30:45. *)
Definition cts_time : TimeApp.bt_cts_time_format :=
  {| TimeApp.year := 2025; TimeApp.mon := 3; TimeApp.mday := 9;
     TimeApp.hours := 14; TimeApp.min := 30; TimeApp.sec := 45;
     TimeApp.wday := 0; TimeApp.fractions256 := 0; TimeApp.reason := 0 |}.

End Example.

(** ** Which channels reach the payload (combined revision) *)

Module Reach.
Import Combined.

(** The fetch succeeded and the readings passed the validation. *)
Definition validated (io : cycle_io) : Prop :=
  c_true (fetch_rc io) = false /\ invalid io = false.

(** Two cycles whose collaborators answer alike except for the value of
    channel [c]. *)
Definition differ_only_at (c : sensor_channel) (io io' : cycle_io) : Prop :=
  fetch_rc io = fetch_rc io' /\
  (forall n, adv_rc io n = adv_rc io' n) /\
  (forall c', c' ≠ c -> chan_val io c' = chan_val io' c').

(** The value of channel [c] determines some byte of the payload: two
    validated cycles that differ in that value only leave different
    service data. *)
Definition channel_reaches_payload (c : sensor_channel) : Prop :=
  exists (io io' : cycle_io) (b : list Z),
    wf b /\ validated io /\ validated io' /\ differ_only_at c io io' /\
    final_state (sensor_work_handler io b) ≠ final_state (sensor_work_handler io' b).

(** The channels that have a tag in the buffer. *)
Definition encoded_channels : list sensor_channel :=
  [SENSOR_CHAN_AMBIENT_TEMP; SENSOR_CHAN_HUMIDITY; SENSOR_CHAN_PRESS;
   SENSOR_CHAN_VOC; SENSOR_CHAN_CO2].

End Reach.

(** * The rest of the sensor application *)

(** ** Calls other than logging *)

Definition is_log (e : event) : bool :=
  match e with EvLog _ => true | _ => false end.

(** The trace without its log lines. *)
Definition calls (t : list event) : list event :=
  filter (fun e => is_log e = false) t.

(** The last cycle of a run whose fetch succeeded and whose readings passed
    the validation of the combined revision. *)
Fixpoint last_validated (ios : list cycle_io) : option cycle_io :=
  match ios with
  | [] => None
  | io :: rest =>
      match last_validated rest with
      | Some io' => Some io'
      | None =>
          if c_true (fetch_rc io) then None
          else if Combined.invalid io then None else Some io
      end
  end.

(** ** Start-up: [init_sensor] and [main] *)

Module Startup.

(** What the collaborators answer during start-up: [device_is_ready], and
    the return codes of [bt_enable], [bt_le_adv_start],
    [bt_le_ext_adv_create], [bt_le_ext_adv_set_data] and
    [bt_le_ext_adv_start]. *)
Record startup_io : Type := StartupIo {
  device_ready : bool;
  bt_enable_rc : Z;
  adv_start_rc : Z;
  ext_adv_create_rc : Z;
  ext_adv_set_data_rc : Z;
  ext_adv_start_rc : Z
}.

Inductive startup_msg : Type :=
| MsgStarting
| MsgSensorNotReady
| MsgSensorName
| MsgBtInitFailed (err : Z)
| MsgBtInitialized
| MsgAdvStartFailed (err : Z)
| MsgExtCreateFailed (err : Z)
| MsgExtSetDataFailed (err : Z)
| MsgExtStartFailed (err : Z)
| MsgExtStarted
| MsgSensorInitFailed (err : Z).

(** Calls made during start-up, in program order. *)
Inductive startup_event : Type :=
| SuLog (m : startup_msg)
| SuBtEnable
| SuAdvStart (ad : ad_id) (service_data : list Z)
| SuExtAdvCreate
| SuExtAdvSetData (service_data : list Z)
| SuExtAdvStart
| SuSchedule (t : k_timeout).

(** The first poll cycle has been handed to the work queue. *)
Definition schedules_first_cycle (t : list startup_event) : Prop :=
  SuSchedule K_NO_WAIT ∈ t.

End Startup.

Module ThreePacketStartup.
Import Startup ThreePacket.

(** [init_sensor] of the three-buffer revision.  [ENODEV] is the errno
    constant of the C library, a parameter here. *)
Definition init_sensor (ENODEV : Z) (su : startup_io) (b : bufs)
    : Z * list startup_event :=
  if negb (device_ready su) then
    (- ENODEV, [SuLog MsgSensorNotReady])
  else
    let err := adv_start_rc su in
    if c_true err then
      (0, [SuLog MsgSensorName;
           SuAdvStart AD_TEMP_HUM (service_data_temp_hum b);
           SuLog (MsgAdvStartFailed err)])
    else
      (0, [SuLog MsgSensorName;
           SuAdvStart AD_TEMP_HUM (service_data_temp_hum b);
           SuSchedule K_NO_WAIT]).

End ThreePacketStartup.

Module CombinedStartup.
Import Startup Combined.

(** [init_sensor] of the combined revision: every failing step returns its
    own error code. *)
Definition init_sensor (ENODEV : Z) (su : startup_io) (b : list Z)
    : Z * list startup_event :=
  if negb (device_ready su) then
    (- ENODEV, [SuLog MsgSensorNotReady])
  else
    let err := ext_adv_create_rc su in
    if c_true err then
      (err, [SuLog MsgSensorName; SuExtAdvCreate; SuLog (MsgExtCreateFailed err)])
    else
      let err := ext_adv_set_data_rc su in
      if c_true err then
        (err, [SuLog MsgSensorName; SuExtAdvCreate; SuExtAdvSetData b;
               SuLog (MsgExtSetDataFailed err)])
      else
        let err := ext_adv_start_rc su in
        if c_true err then
          (err, [SuLog MsgSensorName; SuExtAdvCreate; SuExtAdvSetData b;
                 SuExtAdvStart; SuLog (MsgExtStartFailed err)])
        else
          (0, [SuLog MsgSensorName; SuExtAdvCreate; SuExtAdvSetData b;
               SuExtAdvStart; SuLog MsgExtStarted; SuSchedule K_NO_WAIT]).

End CombinedStartup.

Module WorkQueueMain.
Import Startup.

(** [main] of the work-queue application; [init_sensor] is the result of
    the call, looked at only when [bt_enable] succeeded. *)
Definition main (su : startup_io) (init_sensor : Z * list startup_event)
    : Z * list startup_event :=
  let err := bt_enable_rc su in
  if c_true err then
    (0, [SuBtEnable; SuLog (MsgBtInitFailed err)])
  else
    let '(err, t) := init_sensor in
    if c_true err then
      (0, [SuBtEnable; SuLog MsgBtInitialized] ++ t ++ [SuLog (MsgSensorInitFailed err)])
    else
      (0, [SuBtEnable; SuLog MsgBtInitialized] ++ t).

End WorkQueueMain.

Module SimpleLoopMain.
Import Startup SimpleLoop.

Inductive sys_event : Type :=
| AtStartup (e : startup_event)
| InLoop (e : event).

(** [main] of the endless-loop application, run for as many passes of
    [for (;;)] as [ios] has answers.  The result is [Some] of the value
    returned, or [None] while the loop is still running: the loop has no
    [break] and no [return]. *)
Definition main (su : startup_io) (ios : list cycle_io) (b : bufs)
    : option Z * bufs * list sys_event :=
  if negb (device_ready su) then
    (Some 0, b, [AtStartup (SuLog MsgStarting); AtStartup (SuLog MsgSensorNotReady)])
  else
    let err := bt_enable_rc su in
    if c_true err then
      (Some 0, b, [AtStartup (SuLog MsgStarting); AtStartup (SuLog MsgSensorName);
                   AtStartup SuBtEnable; AtStartup (SuLog (MsgBtInitFailed err))])
    else
      let err := adv_start_rc su in
      if c_true err then
        (Some 0, b, [AtStartup (SuLog MsgStarting); AtStartup (SuLog MsgSensorName);
                     AtStartup SuBtEnable;
                     AtStartup (SuAdvStart AD_TEMP_HUM (service_data_temp_hum b));
                     AtStartup (SuLog (MsgAdvStartFailed err))])
      else
        let r := run_cycles loop_body ios b in
        (None, final_state r,
         [AtStartup (SuLog MsgStarting); AtStartup (SuLog MsgSensorName);
          AtStartup SuBtEnable;
          AtStartup (SuAdvStart AD_TEMP_HUM (service_data_temp_hum b))]
         ++ map InLoop (trace r)).

End SimpleLoopMain.

(** Calls made by the loop body, among the events of [main]. *)
Definition is_in_loop (e : SimpleLoopMain.sys_event) : bool :=
  match e with SimpleLoopMain.InLoop _ => true | _ => false end.

(** ** A receiver of the service data *)

Module Receiver.

(** Modelled from the spec: the receiver is not part of the repository.  The
    wire format gives each object id its width and signedness: [0x02]
    signed 16 bit, [0x03], [0x12] and [0x13] unsigned 16 bit, [0x04]
    unsigned 24 bit, all little-endian. *)
Definition object_width (tag : Z) : option nat :=
  if tag =? 0x02 then Some 2%nat
  else if tag =? 0x03 then Some 2%nat
  else if tag =? 0x04 then Some 3%nat
  else if tag =? 0x12 then Some 2%nat
  else if tag =? 0x13 then Some 2%nat
  else None.

Definition object_value (tag raw : Z) : Z :=
  if tag =? 0x02 then to_int16 raw else raw.

(** Modelled from the spec: the objects after the format byte, each an id
    followed by its value bytes. *)
Fixpoint parse_objects (l : list Z) : option (list (Z * Z)) :=
  match l with
  | [] => Some []
  | tag :: rest =>
      match object_width tag with
      | Some 2%nat =>
          match rest with
          | lo :: hi :: rest' =>
              match parse_objects rest' with
              | Some vs => Some ((tag, object_value tag (lo + 256 * hi)) :: vs)
              | None => None
              end
          | _ => None
          end
      | Some 3%nat =>
          match rest with
          | lo :: mid :: hi :: rest' =>
              match parse_objects rest' with
              | Some vs =>
                  Some ((tag, object_value tag (lo + 256 * mid + 65536 * hi)) :: vs)
              | None => None
              end
          | _ => None
          end
      | _ => None
      end
  end.

(** Modelled from the spec: service data is the service id [0xFCD2], low
    byte first, the format byte [0x40], and the objects. *)
Definition parse_service_data (buf : list Z) : option (list (Z * Z)) :=
  match buf with
  | id_lo :: id_hi :: fmt :: objects =>
      if (id_lo =? 0xD2) && (id_hi =? 0xFC) && (fmt =? 0x40)
      then parse_objects objects else None
  | _ => None
  end.

End Receiver.

(** * The rest of the time application *)

Module TimeConn.

(** [enum { STATE_CONNECTED, STATE_DISCONNECTED, ... }] *)
Definition STATE_CONNECTED : Z := 0.
Definition STATE_DISCONNECTED : Z := 1.

(** [atomic_set_bit(target, bit)] of the kernel sets bit [bit] of the
    word; the callbacks run one at a time. *)
Definition atomic_set_bit (target bit : Z) : Z :=
  Z.lor target (Z.shiftl 1 bit).

(** The file-scope variables [state] and [cts_ntf_enabled]. *)
Record app_state : Type := AppState {
  state : Z;
  cts_ntf_enabled : bool
}.

Definition app_initial : app_state :=
  {| state := 0; cts_ntf_enabled := false |}.

Inductive time_msg : Type :=
| MsgConnFailed (err : Z)
| MsgConnected
| MsgDisconnected (reason : Z)
| MsgRecycled
| MsgNtfEnabled
| MsgNtfDisabled
| MsgCreatingCoded
| MsgCreateCodedFailed (err : Z)
| MsgCreatingNonCoded
| MsgCreateFailed (err : Z)
| MsgSettingData
| MsgSetDataFailed (err : Z)
| MsgStartingExt
| MsgAdvStartFailed (err : Z)
| MsgAdvStarted.

(** Calls into the kernel and the Bluetooth stack, in program order. *)
Inductive time_event : Type :=
| TeLog (m : time_msg)
| TeWorkSubmit
| TeExtAdvCreate (options : Z)
| TeExtAdvSetData
| TeExtAdvStart.

Definition is_work_submit (e : time_event) : bool :=
  match e with TeWorkSubmit => true | _ => false end.

(** How often [adv_work] was submitted. *)
Definition submit_count (t : list time_event) : nat :=
  length (filter (fun e => is_work_submit e = true) t).

(** [connected]: a failed connection is only printed. *)
Definition connected (err : Z) (s : app_state) : app_state * list time_event :=
  if c_true err then
    (s, [TeLog (MsgConnFailed err)])
  else
    ({| state := atomic_set_bit (state s) STATE_CONNECTED;
        cts_ntf_enabled := cts_ntf_enabled s |},
     [TeLog MsgConnected]).

Definition disconnected (reason : Z) (s : app_state) : app_state * list time_event :=
  ({| state := atomic_set_bit (state s) STATE_DISCONNECTED;
      cts_ntf_enabled := cts_ntf_enabled s |},
   [TeLog (MsgDisconnected reason)]).

Definition recycled_cb (s : app_state) : app_state * list time_event :=
  (s, [TeLog MsgRecycled; TeWorkSubmit]).

Definition notify_change (enabled : bool) (s : app_state)
    : app_state * list time_event :=
  ({| state := state s; cts_ntf_enabled := enabled |},
   [TeLog (if enabled then MsgNtfEnabled else MsgNtfDisabled)]).

(** The callbacks registered in [conn_callbacks] and [bt_cts], as the stack
    invokes them. *)
Inductive bt_callback : Type :=
| CbConnected (err : Z)
| CbDisconnected (reason : Z)
| CbRecycled
| CbNotifyChange (enabled : bool).

Definition dispatch (cb : bt_callback) (s : app_state)
    : app_state * list time_event :=
  match cb with
  | CbConnected err => connected err s
  | CbDisconnected reason => disconnected reason s
  | CbRecycled => recycled_cb s
  | CbNotifyChange enabled => notify_change enabled s
  end.

Fixpoint run_callbacks (cbs : list bt_callback) (s : app_state)
    : app_state * list time_event :=
  match cbs with
  | [] => (s, [])
  | cb :: rest =>
      let '(s1, t1) := dispatch cb s in
      let '(s2, t2) := run_callbacks rest s1 in
      (s2, t1 ++ t2)
  end.

Definition is_recycled (cb : bt_callback) : bool :=
  match cb with CbRecycled => true | _ => false end.

Definition is_connected_ok (cb : bt_callback) : bool :=
  match cb with CbConnected err => negb (c_true err) | _ => false end.

Definition is_disconnected (cb : bt_callback) : bool :=
  match cb with CbDisconnected _ => true | _ => false end.

(** What the stack answers to one run of [adv_work_handler]: the return
    codes of the first and the second [bt_le_ext_adv_create], of
    [bt_le_ext_adv_set_data] and of [bt_le_ext_adv_start]. *)
Record adv_io : Type := AdvIo {
  create_coded_rc : Z;
  create_plain_rc : Z;
  set_data_rc : Z;
  start_rc : Z
}.

(** The statements of the extended variant after an advertising set
    exists. *)
Definition adv_set_data_and_start (io : adv_io) : list time_event :=
  let err := set_data_rc io in
  if c_true err then
    [TeLog MsgSettingData; TeExtAdvSetData; TeLog (MsgSetDataFailed err)]
  else
    let err := start_rc io in
    if c_true err then
      [TeLog MsgSettingData; TeExtAdvSetData; TeLog MsgStartingExt; TeExtAdvStart;
       TeLog (MsgAdvStartFailed err)]
    else
      [TeLog MsgSettingData; TeExtAdvSetData; TeLog MsgStartingExt; TeExtAdvStart;
       TeLog MsgAdvStarted].

(** [adv_work_handler] built with [CONFIG_BT_EXT_ADV]: a second
    [bt_le_ext_adv_create] with the Coded PHY option cleared when the first
    fails.  The three option bits are constants of the Bluetooth stack,
    parameters here. *)
Definition adv_work_handler_ext
    (BT_LE_ADV_OPT_EXT_ADV BT_LE_ADV_OPT_CONN BT_LE_ADV_OPT_CODED : Z)
    (io : adv_io) : list time_event :=
  let options :=
    Z.lor (Z.lor BT_LE_ADV_OPT_EXT_ADV BT_LE_ADV_OPT_CONN) BT_LE_ADV_OPT_CODED in
  let err := create_coded_rc io in
  if c_true err then
    let options' := Z.land options (Z.lnot BT_LE_ADV_OPT_CODED) in
    let err' := create_plain_rc io in
    [TeLog MsgCreatingCoded; TeExtAdvCreate options;
     TeLog (MsgCreateCodedFailed err); TeLog MsgCreatingNonCoded;
     TeExtAdvCreate options'] ++
    (if c_true err' then [TeLog (MsgCreateFailed err')]
     else adv_set_data_and_start io)
  else
    [TeLog MsgCreatingCoded; TeExtAdvCreate options] ++ adv_set_data_and_start io.

End TimeConn.

(** The option words of the [bt_le_ext_adv_create] calls of a trace, in
    order. *)
Definition ext_creates (t : list TimeConn.time_event) : list Z :=
  omap (fun e => match e with TimeConn.TeExtAdvCreate o => Some o | _ => None end) t.

(** The connected and the disconnected bit, set when a callback of the
    list sets them. *)
Definition state_bits_of (cbs : list TimeConn.bt_callback) : Z :=
  Z.lor (if existsb TimeConn.is_connected_ok cbs then 1 else 0)
        (if existsb TimeConn.is_disconnected cbs then 2 else 0).

(** The argument of the last [notify_change] among the callbacks. *)
Fixpoint last_notify (cbs : list TimeConn.bt_callback) : option bool :=
  match cbs with
  | [] => None
  | cb :: rest =>
      match last_notify rest with
      | Some e => Some e
      | None => match cb with TimeConn.CbNotifyChange e => Some e | _ => None end
      end
  end.

(** * Proofs *)

(** ** Facts on the conversions and on byte extraction *)

Section ByteFacts.

Lemma wrap_signed_cong (w z : Z) :
  0 < w -> wrap_signed w z mod 2 ^ w = z mod 2 ^ w.
Proof.
  intros Hw. unfold wrap_signed.
  assert (Hp : 2 ^ w = 2 * 2 ^ (w - 1)).
  { rewrite <- Z.pow_succ_r by lia. f_equal. lia. }
  assert (0 < 2 ^ (w - 1)) by (apply Z.pow_pos_nonneg; lia).
  rewrite Zminus_mod, Zmod_mod, <- Zminus_mod.
  f_equal. lia.
Qed.

Lemma wrap_signed_id (w z : Z) :
  0 < w -> - 2 ^ (w - 1) <= z < 2 ^ (w - 1) -> wrap_signed w z = z.
Proof.
  intros Hw Hz. unfold wrap_signed.
  assert (Hp : 2 ^ w = 2 * 2 ^ (w - 1)).
  { rewrite <- Z.pow_succ_r by lia. f_equal. lia. }
  rewrite Z.mod_small by lia. lia.
Qed.

Lemma to_int32_id z : int32_range z -> to_int32 z = z.
Proof. unfold int32_range. intros H. apply wrap_signed_id; [lia|]. simpl. lia. Qed.

Lemma to_int16_id z : int16_range z -> to_int16 z = z.
Proof. unfold int16_range. intros H. apply wrap_signed_id; [lia|]. simpl. lia. Qed.

Lemma to_uint16_id z : uint16_range z -> to_uint16 z = z.
Proof. unfold uint16_range, to_uint16. intros H. apply Z.mod_small. simpl. lia. Qed.

Lemma to_uint8_id z : uint8_range z -> to_uint8 z = z.
Proof. unfold uint8_range, to_uint8. intros H. apply Z.mod_small. simpl. lia. Qed.

Lemma to_int32_cong z : to_int32 z mod 2 ^ 32 = z mod 2 ^ 32.
Proof. apply wrap_signed_cong. lia. Qed.

Lemma to_int16_cong z : to_int16 z mod 2 ^ 16 = z mod 2 ^ 16.
Proof. apply wrap_signed_cong. lia. Qed.

Lemma to_uint16_cong z : to_uint16 z mod 2 ^ 16 = z mod 2 ^ 16.
Proof. unfold to_uint16. apply Zmod_mod. Qed.

(** Congruence modulo [2^n] descends to every smaller power of two. *)
Lemma cong_pow2_le (n m a b : Z) :
  0 <= m <= n -> a mod 2 ^ n = b mod 2 ^ n -> a mod 2 ^ m = b mod 2 ^ m.
Proof.
  intros Hmn Hab.
  assert (Hn : 2 ^ n = 2 ^ m * 2 ^ (n - m)).
  { rewrite <- Z.pow_add_r by lia. f_equal. lia. }
  assert (0 < 2 ^ m) by (apply Z.pow_pos_nonneg; lia).
  assert (0 < 2 ^ (n - m)) by (apply Z.pow_pos_nonneg; lia).
  assert (Ha : (a mod 2 ^ n) mod 2 ^ m = a mod 2 ^ m).
  { rewrite Hn, Z.rem_mul_r by lia.
    rewrite Z.mul_comm, Z_mod_plus_full. apply Zmod_mod. }
  assert (Hb : (b mod 2 ^ n) mod 2 ^ m = b mod 2 ^ m).
  { rewrite Hn, Z.rem_mul_r by lia.
    rewrite Z.mul_comm, Z_mod_plus_full. apply Zmod_mod. }
  rewrite <- Ha, <- Hb, Hab. reflexivity.
Qed.

Lemma add_cong (n a a' b b' : Z) :
  a mod n = a' mod n -> b mod n = b' mod n -> (a + b) mod n = (a' + b') mod n.
Proof. intros Ha Hb. rewrite Zplus_mod, Ha, Hb, <- Zplus_mod. reflexivity. Qed.

(** The byte cut out of [x] at bit [k] depends on the low [k + 8] bits of
    [x] only. *)
Lemma shr_mask_cong (n k a b : Z) :
  0 <= k -> k + 8 <= n -> a mod 2 ^ n = b mod 2 ^ n ->
  shr_mask a k = shr_mask b k.
Proof.
  intros Hk Hn Hab. unfold shr_mask.
  apply Z.bits_inj'. intros i Hi.
  rewrite !Z.land_spec, !Z.shiftr_spec by lia.
  change 255 with (Z.ones 8).
  destruct (Z.ltb_spec i 8) as [Hlt | Hge].
  - rewrite <- (Z.mod_pow2_bits_low a n (i + k)) by lia.
    rewrite <- (Z.mod_pow2_bits_low b n (i + k)) by lia.
    rewrite Hab. reflexivity.
  - rewrite Z.ones_spec_high by lia. rewrite !andb_false_r. reflexivity.
Qed.

(** Arithmetic reading of the extracted byte. *)
Lemma shr_mask_div_mod x k : 0 <= k -> shr_mask x k = (x / 2 ^ k) mod 256.
Proof.
  intros Hk. unfold shr_mask. change 255 with (Z.ones 8).
  rewrite Z.land_ones, Z.shiftr_div_pow2 by lia. reflexivity.
Qed.

Lemma shr_mask_range x k : 0 <= k -> uint8_range (shr_mask x k).
Proof.
  intros Hk. rewrite shr_mask_div_mod by assumption. unfold uint8_range.
  pose proof (Z.mod_pos_bound (x / 2 ^ k) 256 eq_refl) as Hb. lia.
Qed.

Lemma to_uint8_shr_mask x k : 0 <= k -> to_uint8 (shr_mask x k) = shr_mask x k.
Proof. intros Hk. apply to_uint8_id, shr_mask_range, Hk. Qed.

Lemma shr_mask_0 x : shr_mask x 0 = Z.land x 255.
Proof. unfold shr_mask. rewrite Z.shiftr_0_r. reflexivity. Qed.

End ByteFacts.

(** ** The scaled values against the formulas *)

Ltac quot_lia := Z.to_euclidean_division_equations; lia.

Section EncodeFacts.

Import Encode SpecFormula.

Lemma wrap_signed_of_cong (w a b : Z) :
  a mod 2 ^ w = b mod 2 ^ w -> wrap_signed w a = wrap_signed w b.
Proof.
  intros Hab. unfold wrap_signed. f_equal.
  apply add_cong; [exact Hab | reflexivity].
Qed.

Lemma centi32_cong (v : sensor_value) :
  add32 (mul32 (val1 v) 100) (div32 (val2 v) 10000) mod 2 ^ 32
  = centi v mod 2 ^ 32.
Proof.
  unfold add32, mul32, div32, centi.
  rewrite to_int32_cong. apply add_cong; apply to_int32_cong.
Qed.

Lemma centi16_cong (v : sensor_value) :
  add32 (mul32 (val1 v) 100) (div32 (val2 v) 10000) mod 2 ^ 16
  = centi v mod 2 ^ 16.
Proof. apply (cong_pow2_le 32); [lia | apply centi32_cong]. Qed.

Lemma temp_scaled_spec v : temp_scaled v = to_int16 (centi v).
Proof. apply wrap_signed_of_cong, centi16_cong. Qed.

Lemma humidity_scaled_spec v : humidity_scaled v = to_int16 (centi v).
Proof. apply wrap_signed_of_cong, centi16_cong. Qed.

Lemma voc_scaled_spec v : voc_scaled v = to_uint16 (centi v).
Proof. apply centi16_cong. Qed.

Lemma co2_scaled_spec v : co2_scaled v = to_uint16 (co2_units v).
Proof.
  unfold co2_scaled, co2_sum, to_uint16, add32, div32, co2_units.
  apply (cong_pow2_le 32); [lia |].
  rewrite to_int32_cong. apply add_cong; [reflexivity | apply to_int32_cong].
Qed.

(** With the fraction below one unit the [int] sum is the integer part. *)
Lemma co2_sum_int_part v :
  int32_range (val1 v) -> 0 <= val2 v < 1000000 -> co2_sum v = val1 v.
Proof.
  intros H1 H2. unfold co2_sum, add32, div32.
  rewrite Z.quot_small by lia.
  rewrite (to_int32_id 0) by (unfold int32_range; lia).
  rewrite Z.add_0_r. apply to_int32_id, H1.
Qed.

(** Inside the [int32_t] range all intermediate results of the two-stage
    pressure formula are exact except possibly the last sum. *)
Lemma pressure_scaled_spec v :
  sensor_value_ok v -> pressure_scaled v = to_int32 (pressure_two_stage v).
Proof.
  intros [H1 H2]. unfold int32_range in *.
  unfold pressure_scaled, pressure_two_stage, add32, mul32, div32, rem32.
  rewrite (to_int32_id (val1 v ÷ 100)) by (unfold int32_range; quot_lia).
  rewrite (to_int32_id (val1 v ÷ 100 * 100)) by (unfold int32_range; quot_lia).
  rewrite (to_int32_id (Z.rem (val1 v) 100)) by (unfold int32_range; quot_lia).
  rewrite (to_int32_id (val2 v ÷ 1000000)) by (unfold int32_range; quot_lia).
  rewrite (to_int32_id (Z.rem (val1 v) 100 + val2 v ÷ 1000000))
    by (unfold int32_range; quot_lia).
  rewrite (to_int32_id ((Z.rem (val1 v) 100 + val2 v ÷ 1000000) ÷ 10))
    by (unfold int32_range; quot_lia).
  reflexivity.
Qed.

Lemma pressure_two_stage_range v :
  int32_range (val1 v) -> 0 <= val2 v < 1000000 ->
  int32_range (pressure_two_stage v).
Proof.
  unfold int32_range, pressure_two_stage. intros H1 H2.
  rewrite (Z.quot_small (val2 v)) by lia. quot_lia.
Qed.

Lemma pressure_scaled_loop_cong v :
  pressure_scaled_loop v mod 2 ^ 32 = pressure_loop v mod 2 ^ 32.
Proof.
  unfold pressure_scaled_loop, pressure_loop, add32, mul32, div32.
  rewrite to_int32_cong. apply add_cong; apply to_int32_cong.
Qed.

End EncodeFacts.

(** ** Stores into a buffer *)

Section StoreFacts.

Lemma length_store_u8 (buf : list Z) (i : nat) (v : Z) :
  length (store_u8 buf i v) = length buf.
Proof. apply length_insert. Qed.

Lemma lookup_store_u8_eq (buf : list Z) (i : nat) (v : Z) :
  (i < length buf)%nat -> store_u8 buf i v !! i = Some (to_uint8 v).
Proof. intros Hi. unfold store_u8. by apply list_lookup_insert_eq. Qed.

Lemma lookup_store_u8_ne (buf : list Z) (i j : nat) (v : Z) :
  i ≠ j -> store_u8 buf i v !! j = buf !! j.
Proof. intros Hij. unfold store_u8. by apply list_lookup_insert_ne. Qed.

End StoreFacts.

(** Lookup in a buffer after a sequence of stores at constant indices. *)
Ltac store_lookup Hlen :=
  repeat first
    [ rewrite lookup_store_u8_ne by (cbv; lia)
    | rewrite lookup_store_u8_eq by (rewrite ?length_store_u8, Hlen; cbv; lia) ].

(** Membership in an explicit list. *)
Ltac in_list :=
  solve [repeat first [apply list_elem_of_here | apply list_elem_of_further]].

(** Symbolic execution of a handler: unfold the monad, split on every
    condition that is still a variable. *)
Ltac run_prog_step :=
  cbv beta iota zeta delta
    [bind emit modify gets ret final_state trace fst snd
     ThreePacket.sensor_work_handler ThreePacket.bt_le_adv_update_data
     ThreePacket.set_temp_hum ThreePacket.set_press ThreePacket.set_voc_co2
     ThreePacket.service_data_temp_hum ThreePacket.service_data_press
     ThreePacket.service_data_voc_co2
     SimpleLoop.service_data_temp_hum SimpleLoop.service_data_press_gas
     Combined.sensor_work_handler Combined.bt_le_ext_adv_set_data
     Combined.set_combined
     SimpleLoop.loop_body SimpleLoop.bt_le_adv_update_data
     SimpleLoop.set_temp_hum SimpleLoop.set_press_gas].

Ltac run_prog :=
  run_prog_step;
  repeat match goal with
         | |- context [if ?c then _ else _] => destruct c eqn:?; run_prog_step
         end.

(** ** What one execution does, in closed form *)

Module ThreePacketFacts.
Import ThreePacket SpecFormula.

(** Every execution performs the stores, whatever the fetch returned. *)
Lemma tp_handler_final_state io b :
  final_state (sensor_work_handler io b) = encoded io b.
Proof.
  run_prog; reflexivity.
Qed.

Lemma tp_encoded_wf io b : wf b -> wf (encoded io b).
Proof.
  intros (H1 & H2 & H3). unfold wf, encoded; simpl.
  rewrite !length_store_u8. auto.
Qed.

Lemma tp_handler_trace_last io b :
  last (trace (sensor_work_handler io b)) = Some (EvSchedule SENSOR_WORK_DELAY).
Proof.
  run_prog; reflexivity.
Qed.

End ThreePacketFacts.

Module CombinedFacts.
Import Combined SpecFormula.

Lemma cb_handler_final_state io b :
  final_state (sensor_work_handler io b)
  = if c_true (fetch_rc io) then b
    else if invalid io then b else encoded io b.
Proof. unfold invalid. run_prog; reflexivity. Qed.

Lemma cb_handler_trace io b :
  trace (sensor_work_handler io b)
  = if c_true (fetch_rc io) then
      [EvLog (LogFetchFailed (fetch_rc io)); EvSchedule SENSOR_WORK_DELAY]
    else if invalid io then
      [EvLog LogInvalidValues; EvSchedule SENSOR_WORK_DELAY]
    else
      [EvLog LogReadings; EvAdvUpdate AD_COMBINED (encoded io b)] ++
      (if c_true (adv_rc io 0)
       then [EvLog (LogUpdateFailed AD_COMBINED (adv_rc io 0))] else []) ++
      [EvSchedule SENSOR_WORK_DELAY].
Proof. unfold invalid. run_prog; reflexivity. Qed.

Lemma cb_encoded_wf io b : wf b -> wf (encoded io b).
Proof. unfold wf, encoded. intros H. rewrite !length_store_u8. exact H. Qed.

Lemma cb_handler_wf io b : wf b -> wf (final_state (sensor_work_handler io b)).
Proof.
  intros H. rewrite cb_handler_final_state.
  destruct (c_true (fetch_rc io)); [exact H |].
  destruct (invalid io); [exact H | by apply cb_encoded_wf].
Qed.

Lemma cb_handler_trace_last io b :
  last (trace (sensor_work_handler io b)) = Some (EvSchedule SENSOR_WORK_DELAY).
Proof.
  rewrite cb_handler_trace.
  destruct (c_true (fetch_rc io)); [reflexivity |].
  destruct (invalid io); [reflexivity |].
  destruct (c_true (adv_rc io 0)); reflexivity.
Qed.

End CombinedFacts.

Module SimpleLoopFacts.
Import SimpleLoop SpecFormula.

Lemma sl_body_final_state io b : final_state (loop_body io b) = encoded io b.
Proof. run_prog; reflexivity. Qed.

Lemma sl_encoded_wf io b : wf b -> wf (encoded io b).
Proof.
  intros (H1 & H2). unfold wf, encoded; simpl.
  rewrite !length_store_u8. auto.
Qed.

Lemma sl_body_trace_last io b :
  last (trace (loop_body io b)) = Some (EvSleep (K_MINUTES 5)).
Proof. run_prog; reflexivity. Qed.

End SimpleLoopFacts.

(** ** Bytes stored from a 16-bit or 32-bit variable *)

Section StoredBytes.

Import SpecFormula.

Lemma byte_lo_int16 x : to_uint8 (Z.land (to_int16 x) 255) = byte0 x.
Proof.
  rewrite <- shr_mask_0, to_uint8_shr_mask by lia.
  unfold byte0. rewrite <- shr_mask_0.
  apply (shr_mask_cong 16); [lia | lia | apply to_int16_cong].
Qed.

Lemma byte_hi_int16 x : to_uint8 (shr_mask (to_int16 x) 8) = byte1 x.
Proof.
  rewrite to_uint8_shr_mask by lia. unfold byte1. fold (shr_mask x 8).
  apply (shr_mask_cong 16); [lia | lia | apply to_int16_cong].
Qed.

Lemma byte_lo_uint16 x : to_uint8 (Z.land (to_uint16 x) 255) = byte0 x.
Proof.
  rewrite <- shr_mask_0, to_uint8_shr_mask by lia.
  unfold byte0. rewrite <- shr_mask_0.
  apply (shr_mask_cong 16); [lia | lia | apply to_uint16_cong].
Qed.

Lemma byte_hi_uint16 x : to_uint8 (shr_mask (to_uint16 x) 8) = byte1 x.
Proof.
  rewrite to_uint8_shr_mask by lia. unfold byte1. fold (shr_mask x 8).
  apply (shr_mask_cong 16); [lia | lia | apply to_uint16_cong].
Qed.

Lemma byte_lo_cong32 x y :
  x mod 2 ^ 32 = y mod 2 ^ 32 -> to_uint8 (Z.land x 255) = byte0 y.
Proof.
  intros Hxy. rewrite <- shr_mask_0, to_uint8_shr_mask by lia.
  unfold byte0. rewrite <- shr_mask_0.
  apply (shr_mask_cong 32); [lia | lia | exact Hxy].
Qed.

Lemma byte_mid_cong32 x y :
  x mod 2 ^ 32 = y mod 2 ^ 32 -> to_uint8 (shr_mask x 8) = byte1 y.
Proof.
  intros Hxy. rewrite to_uint8_shr_mask by lia. unfold byte1. fold (shr_mask y 8).
  apply (shr_mask_cong 32); [lia | lia | exact Hxy].
Qed.

Lemma byte_high_cong32 x y :
  x mod 2 ^ 32 = y mod 2 ^ 32 -> to_uint8 (shr_mask x 16) = byte2 y.
Proof.
  intros Hxy. rewrite to_uint8_shr_mask by lia. unfold byte2. fold (shr_mask y 16).
  apply (shr_mask_cong 32); [lia | lia | exact Hxy].
Qed.

(** Two little-endian bytes read back as an unsigned 16-bit field. *)
Lemma le16_decode x : byte0 x + 256 * byte1 x = to_uint16 x.
Proof.
  unfold byte0, byte1, to_uint16.
  rewrite <- shr_mask_0. fold (shr_mask x 8).
  rewrite !shr_mask_div_mod by lia.
  change (2 ^ 0) with 1. rewrite Z.div_1_r.
  change (2 ^ 16) with (256 * 256). change (2 ^ 8) with 256.
  rewrite Z.rem_mul_r by lia. reflexivity.
Qed.

(** Three little-endian bytes read back as an unsigned 24-bit field. *)
Lemma le24_decode x : byte0 x + 256 * byte1 x + 65536 * byte2 x = x mod 2 ^ 24.
Proof.
  unfold byte0, byte1, byte2.
  rewrite <- shr_mask_0. fold (shr_mask x 8). fold (shr_mask x 16).
  rewrite !shr_mask_div_mod by lia.
  change (2 ^ 0) with 1. rewrite Z.div_1_r.
  change (2 ^ 24) with (256 * (256 * 256)).
  change (2 ^ 8) with 256. change (2 ^ 16) with (256 * 256).
  rewrite (Z.rem_mul_r x 256 (256 * 256)) by lia.
  rewrite (Z.rem_mul_r (x / 256) 256 256) by lia.
  rewrite Z.div_div by lia. lia.
Qed.

End StoredBytes.

(** ** The value fields after the stores *)

Module ThreePacketFields.
Import ThreePacket ThreePacketFacts SpecFormula.

Section Fields.
Variables (io : cycle_io) (b : bufs).
Hypothesis Hwf : wf b.

Lemma tp_temp_field :
  holds_le16 (service_data_temp_hum (encoded io b)) IDX_TEMPL IDX_TEMPH
    (centi (chan_val io SENSOR_CHAN_AMBIENT_TEMP)).
Proof.
  destruct Hwf as (Hlen & _ & _).
  split; simpl; store_lookup Hlen; f_equal; rewrite temp_scaled_spec.
  - apply byte_lo_int16.
  - apply byte_hi_int16.
Qed.

Lemma tp_humidity_field :
  holds_le16 (service_data_temp_hum (encoded io b)) IDX_HUMIDL IDX_HUMIDH
    (centi (chan_val io SENSOR_CHAN_HUMIDITY)).
Proof.
  destruct Hwf as (Hlen & _ & _).
  split; simpl; store_lookup Hlen; f_equal; rewrite humidity_scaled_spec.
  - apply byte_lo_int16.
  - apply byte_hi_int16.
Qed.

Lemma tp_pressure_field :
  sensor_value_ok (chan_val io SENSOR_CHAN_PRESS) ->
  holds_le24 (service_data_press (encoded io b))
    IDX_PRESS_LOW IDX_PRESS_MID IDX_PRESS_HIGH
    (pressure_two_stage (chan_val io SENSOR_CHAN_PRESS)).
Proof.
  intros Hok. destruct Hwf as (_ & Hlen & _).
  repeat split; simpl; store_lookup Hlen; f_equal;
    rewrite pressure_scaled_spec by exact Hok.
  - apply byte_lo_cong32, to_int32_cong.
  - apply byte_mid_cong32, to_int32_cong.
  - apply byte_high_cong32, to_int32_cong.
Qed.

Lemma tp_voc_field :
  holds_le16 (service_data_voc_co2 (encoded io b)) IDX_VOC_LOW IDX_VOC_HIGH
    (centi (chan_val io SENSOR_CHAN_VOC)).
Proof.
  destruct Hwf as (_ & _ & Hlen).
  split; simpl; store_lookup Hlen; f_equal; rewrite voc_scaled_spec.
  - apply byte_lo_uint16.
  - apply byte_hi_uint16.
Qed.

(** The CO2 low byte sits at the higher index in this revision. *)
Lemma tp_co2_field :
  holds_le16 (service_data_voc_co2 (encoded io b)) IDX_CO2_LOW IDX_CO2_HIGH
    (co2_units (chan_val io SENSOR_CHAN_CO2)).
Proof.
  destruct Hwf as (_ & _ & Hlen).
  split; simpl; store_lookup Hlen; f_equal; rewrite co2_scaled_spec.
  - apply byte_lo_uint16.
  - apply byte_hi_uint16.
Qed.

(** Bytes outside the value offsets keep their content. *)
Lemma tp_temp_hum_frame (i : nat) :
  i ∉ temp_hum_offsets ->
  service_data_temp_hum (encoded io b) !! i = service_data_temp_hum b !! i.
Proof.
  intros Hi. simpl. rewrite !lookup_store_u8_ne; [done | ..];
    intros <-; apply Hi; unfold temp_hum_offsets; in_list.
Qed.

Lemma tp_press_frame (i : nat) :
  i ∉ press_offsets ->
  service_data_press (encoded io b) !! i = service_data_press b !! i.
Proof.
  intros Hi. simpl. rewrite !lookup_store_u8_ne; [done | ..];
    intros <-; apply Hi; unfold press_offsets; in_list.
Qed.

Lemma tp_voc_co2_frame (i : nat) :
  i ∉ voc_co2_offsets ->
  service_data_voc_co2 (encoded io b) !! i = service_data_voc_co2 b !! i.
Proof.
  intros Hi. simpl. rewrite !lookup_store_u8_ne; [done | ..];
    intros <-; apply Hi; unfold voc_co2_offsets; in_list.
Qed.
End Fields.

End ThreePacketFields.

Module CombinedFields.
Import Combined CombinedFacts SpecFormula.

Section Fields.
Variables (io : cycle_io) (b : list Z).
Hypothesis Hwf : wf b.

Lemma cb_temp_field :
  holds_le16 (encoded io b) IDX_TEMP_L IDX_TEMP_H
    (centi (chan_val io SENSOR_CHAN_AMBIENT_TEMP)).
Proof.
  unfold wf in Hwf.
  split; unfold encoded; store_lookup Hwf; f_equal; rewrite temp_scaled_spec.
  - apply byte_lo_int16.
  - apply byte_hi_int16.
Qed.

Lemma cb_humidity_field :
  holds_le16 (encoded io b) IDX_HUMID_L IDX_HUMID_H
    (centi (chan_val io SENSOR_CHAN_HUMIDITY)).
Proof.
  unfold wf in Hwf.
  split; unfold encoded; store_lookup Hwf; f_equal; rewrite humidity_scaled_spec.
  - apply byte_lo_int16.
  - apply byte_hi_int16.
Qed.

Lemma cb_pressure_field :
  sensor_value_ok (chan_val io SENSOR_CHAN_PRESS) ->
  holds_le24 (encoded io b) IDX_PRESS_L IDX_PRESS_M IDX_PRESS_H
    (pressure_two_stage (chan_val io SENSOR_CHAN_PRESS)).
Proof.
  intros Hok. unfold wf in Hwf.
  repeat split; unfold encoded; store_lookup Hwf; f_equal;
    rewrite pressure_scaled_spec by exact Hok.
  - apply byte_lo_cong32, to_int32_cong.
  - apply byte_mid_cong32, to_int32_cong.
  - apply byte_high_cong32, to_int32_cong.
Qed.

Lemma cb_voc_field :
  holds_le16 (encoded io b) IDX_VOC_L IDX_VOC_H
    (centi (chan_val io SENSOR_CHAN_VOC)).
Proof.
  unfold wf in Hwf.
  split; unfold encoded; store_lookup Hwf; f_equal; rewrite voc_scaled_spec.
  - apply byte_lo_uint16.
  - apply byte_hi_uint16.
Qed.

Lemma cb_co2_field :
  holds_le16 (encoded io b) IDX_CO2_L IDX_CO2_H
    (co2_units (chan_val io SENSOR_CHAN_CO2)).
Proof.
  unfold wf in Hwf.
  split; unfold encoded; store_lookup Hwf; f_equal; rewrite co2_scaled_spec.
  - apply byte_lo_uint16.
  - apply byte_hi_uint16.
Qed.

Lemma cb_frame (i : nat) :
  i ∉ value_offsets -> encoded io b !! i = b !! i.
Proof.
  intros Hi. unfold encoded. rewrite !lookup_store_u8_ne; [done | ..];
    intros <-; apply Hi; unfold value_offsets; in_list.
Qed.
End Fields.

End CombinedFields.

Module SimpleLoopFields.
Import SimpleLoop SimpleLoopFacts SpecFormula.

Section Fields.
Variables (io : cycle_io) (b : bufs).
Hypothesis Hwf : wf b.

Lemma sl_temp_field :
  holds_le16 (service_data_temp_hum (encoded io b)) IDX_TEMPL IDX_TEMPH
    (centi (chan_val io SENSOR_CHAN_AMBIENT_TEMP)).
Proof.
  destruct Hwf as (Hlen & _).
  split; simpl; store_lookup Hlen; f_equal; rewrite temp_scaled_spec.
  - apply byte_lo_int16.
  - apply byte_hi_int16.
Qed.

Lemma sl_humidity_field :
  holds_le16 (service_data_temp_hum (encoded io b)) IDX_HUMIDL IDX_HUMIDH
    (centi (chan_val io SENSOR_CHAN_HUMIDITY)).
Proof.
  destruct Hwf as (Hlen & _).
  split; simpl; store_lookup Hlen; f_equal; rewrite humidity_scaled_spec.
  - apply byte_lo_int16.
  - apply byte_hi_int16.
Qed.

Lemma sl_pressure_field :
  holds_le24 (service_data_press_gas (encoded io b))
    IDX_PRESS_LOW IDX_PRESS_MID IDX_PRESS_HIGH
    (pressure_loop (chan_val io SENSOR_CHAN_PRESS)).
Proof.
  destruct Hwf as (_ & Hlen).
  repeat split; simpl; store_lookup Hlen; f_equal.
  - apply byte_lo_cong32, pressure_scaled_loop_cong.
  - apply byte_mid_cong32, pressure_scaled_loop_cong.
  - apply byte_high_cong32, pressure_scaled_loop_cong.
Qed.

Lemma sl_temp_hum_frame (i : nat) :
  i ∉ [IDX_TEMPL; IDX_TEMPH; IDX_HUMIDL; IDX_HUMIDH] ->
  service_data_temp_hum (encoded io b) !! i = service_data_temp_hum b !! i.
Proof.
  intros Hi. simpl. rewrite !lookup_store_u8_ne; [done | ..];
    intros <-; apply Hi; in_list.
Qed.

Lemma sl_press_gas_frame (i : nat) :
  i ∉ [IDX_PRESS_LOW; IDX_PRESS_MID; IDX_PRESS_HIGH] ->
  service_data_press_gas (encoded io b) !! i = service_data_press_gas b !! i.
Proof.
  intros Hi. simpl. rewrite !lookup_store_u8_ne; [done | ..];
    intros <-; apply Hi; in_list.
Qed.
End Fields.

End SimpleLoopFields.

(** ** Successive cycles *)

Section Cycles.
Context {S : Type}.
Variable handler : cycle_io -> prog S unit.

Lemma run_cycles_final_state_cons io ios s :
  final_state (run_cycles handler (io :: ios) s)
  = final_state (run_cycles handler ios (final_state (handler io s))).
Proof.
  simpl. unfold bind, final_state.
  destruct (handler io s) as [[u s1] t1]. simpl.
  destruct (run_cycles handler ios s1) as [[u2 s2] t2]. reflexivity.
Qed.

(** A property of the state kept by one execution is kept by any number
    of them. *)
Lemma run_cycles_invariant (I : S -> Prop) :
  (forall io s, I s -> I (final_state (handler io s))) ->
  forall ios s, I s -> I (final_state (run_cycles handler ios s)).
Proof.
  intros Hstep ios. induction ios as [| io ios IH]; intros s Hs.
  - exact Hs.
  - rewrite run_cycles_final_state_cons. apply IH, Hstep, Hs.
Qed.
End Cycles.

Module ReachFacts.
Import Combined CombinedFacts Reach.

Lemma validated_final_state io b :
  validated io -> final_state (sensor_work_handler io b) = encoded io b.
Proof. intros [Hf Hv]. rewrite cb_handler_final_state, Hf, Hv. reflexivity. Qed.

Lemma validated_trace io b :
  validated io ->
  trace (sensor_work_handler io b)
  = [EvLog LogReadings; EvAdvUpdate AD_COMBINED (encoded io b)] ++
    (if c_true (adv_rc io 0)
     then [EvLog (LogUpdateFailed AD_COMBINED (adv_rc io 0))] else []) ++
    [EvSchedule SENSOR_WORK_DELAY].
Proof. intros [Hf Hv]. rewrite cb_handler_trace, Hf, Hv. reflexivity. Qed.

(** The stores read five channels only. *)
Lemma encoded_ext io io' b :
  (forall c, c ∈ encoded_channels -> chan_val io c = chan_val io' c) ->
  encoded io b = encoded io' b.
Proof.
  intros H. unfold encoded.
  rewrite !(H SENSOR_CHAN_AMBIENT_TEMP), !(H SENSOR_CHAN_HUMIDITY),
    !(H SENSOR_CHAN_PRESS), !(H SENSOR_CHAN_VOC), !(H SENSOR_CHAN_CO2)
    by (unfold encoded_channels; in_list).
  reflexivity.
Qed.

Lemma example_validated : validated Example.io_ok.
Proof. split; reflexivity. Qed.

End ReachFacts.

(** * The claims *)

Import SpecFormula.

(** C1.  The temperature, humidity and VOC encoders compute
    [int_part*100 + frac/10000] with truncating division and store its
    two low-order bytes, low byte at the lower index: in each revision the
    field holds [scaled & 0xFF] and [(scaled >> 8) & 0xFF] of the exact
    value of the formula.  The 16-bit variables hold that value reduced to
    their type ([int16_t] for temperature and humidity, [uint16_t] for
    VOC), and the two bytes read back as a signed (temperature) or
    unsigned (humidity, VOC) 16-bit field give the value itself whenever
    it fits the field.  The bound on the fraction is the claim's domain;
    nothing else is assumed of the readings. *)
Theorem centi_fields_little_endian (io : cycle_io)
    (b3 : ThreePacket.bufs) (b1 : list Z) (b2 : SimpleLoop.bufs) :
  (forall ch, 0 <= val2 (chan_val io ch) < 1000000) ->
  ThreePacket.wf b3 -> Combined.wf b1 -> Reach.validated io -> SimpleLoop.wf b2 ->
  let temp := chan_val io SENSOR_CHAN_AMBIENT_TEMP in
  let humidity := chan_val io SENSOR_CHAN_HUMIDITY in
  let voc := chan_val io SENSOR_CHAN_VOC in
  let b3' := final_state (ThreePacket.sensor_work_handler io b3) in
  let b1' := final_state (Combined.sensor_work_handler io b1) in
  let b2' := final_state (SimpleLoop.loop_body io b2) in
  (Encode.temp_scaled temp = to_int16 (centi temp) /\
   Encode.humidity_scaled humidity = to_int16 (centi humidity) /\
   Encode.voc_scaled voc = to_uint16 (centi voc)) /\
  (holds_le16 (ThreePacket.service_data_temp_hum b3')
     ThreePacket.IDX_TEMPL ThreePacket.IDX_TEMPH (centi temp) /\
   holds_le16 (ThreePacket.service_data_temp_hum b3')
     ThreePacket.IDX_HUMIDL ThreePacket.IDX_HUMIDH (centi humidity) /\
   holds_le16 (ThreePacket.service_data_voc_co2 b3')
     ThreePacket.IDX_VOC_LOW ThreePacket.IDX_VOC_HIGH (centi voc)) /\
  (holds_le16 b1' Combined.IDX_TEMP_L Combined.IDX_TEMP_H (centi temp) /\
   holds_le16 b1' Combined.IDX_HUMID_L Combined.IDX_HUMID_H (centi humidity) /\
   holds_le16 b1' Combined.IDX_VOC_L Combined.IDX_VOC_H (centi voc)) /\
  (holds_le16 (SimpleLoop.service_data_temp_hum b2')
     SimpleLoop.IDX_TEMPL SimpleLoop.IDX_TEMPH (centi temp) /\
   holds_le16 (SimpleLoop.service_data_temp_hum b2')
     SimpleLoop.IDX_HUMIDL SimpleLoop.IDX_HUMIDH (centi humidity)) /\
  (int16_range (centi temp) ->
     to_int16 (byte0 (centi temp) + 256 * byte1 (centi temp)) = centi temp) /\
  (uint16_range (centi humidity) ->
     byte0 (centi humidity) + 256 * byte1 (centi humidity) = centi humidity) /\
  (uint16_range (centi voc) ->
     byte0 (centi voc) + 256 * byte1 (centi voc) = centi voc).
Proof.
  intros _ H3 H1 Hv H2 temp humidity voc b3' b1' b2'.
  subst b3' b1' b2'.
  rewrite ThreePacketFacts.tp_handler_final_state,
    (ReachFacts.validated_final_state io b1 Hv),
    SimpleLoopFacts.sl_body_final_state.
  split; [| split; [| split; [| split; [| split; [| split]]]]].
  - split; [apply temp_scaled_spec |].
    split; [apply humidity_scaled_spec | apply voc_scaled_spec].
  - split; [by apply ThreePacketFields.tp_temp_field |].
    split; [by apply ThreePacketFields.tp_humidity_field |].
    by apply ThreePacketFields.tp_voc_field.
  - split; [by apply CombinedFields.cb_temp_field |].
    split; [by apply CombinedFields.cb_humidity_field |].
    by apply CombinedFields.cb_voc_field.
  - split; [by apply SimpleLoopFields.sl_temp_field |].
    by apply SimpleLoopFields.sl_humidity_field.
  - intros Hr. rewrite le16_decode.
    transitivity (to_int16 (centi temp)).
    + apply wrap_signed_of_cong, to_uint16_cong.
    + by apply to_int16_id.
  - intros Hr. rewrite le16_decode. by apply to_uint16_id.
  - intros Hr. rewrite le16_decode. by apply to_uint16_id.
Qed.

(** The end-to-end sample of the specification: temperature 22.5 gives
    [0xCA, 0x08], humidity 55 gives [0x7C, 0x15], VOC 10 gives
    [0xE8, 0x03]. *)
Lemma centi_fields_little_endian_witness :
  let b1' := final_state (Combined.sensor_work_handler Example.io_ok Combined.initial) in
  holds_le16 b1' Combined.IDX_TEMP_L Combined.IDX_TEMP_H 2250 /\
  holds_le16 b1' Combined.IDX_HUMID_L Combined.IDX_HUMID_H 5500 /\
  holds_le16 b1' Combined.IDX_VOC_L Combined.IDX_VOC_H 1000.
Proof.
  refine (proj1 (proj2 (proj2
    (centi_fields_little_endian Example.io_ok ThreePacket.initial
       Combined.initial SimpleLoop.initial _ _ _ _ _)))).
  - intros ch. destruct ch; simpl; lia.
  - repeat split.
  - reflexivity.
  - split; reflexivity.
  - split; reflexivity.
Defined.


(** C2, as stated, fails in the endless-loop revision: for the pressure
    reading (1013, 250000) the three bytes stored are those of
    [1013 * 1000 + 250000 / 10000 = 1013025], not those of the two-stage
    value 1001. *)
Lemma simple_loop_pressure_not_two_stage :
  ~ holds_le24
      (SimpleLoop.service_data_press_gas
         (final_state (SimpleLoop.loop_body Example.io_ok SimpleLoop.initial)))
      SimpleLoop.IDX_PRESS_LOW SimpleLoop.IDX_PRESS_MID SimpleLoop.IDX_PRESS_HIGH
      (pressure_two_stage (chan_val Example.io_ok SENSOR_CHAN_PRESS)).
Proof. intros [H _]. vm_compute in H. discriminate H. Qed.

(** C2, amended.  In the two work-queue revisions the pressure encoder
    computes [(i/100)*100 + ((i%100) + f/1_000_000)/10] in this order of
    truncating operations (exactly, when the fraction is below one unit)
    and stores its three low-order bytes little-endian: low, mid, high.  In
    the endless-loop revision the encoder computes [i*1000 + f/10000] and
    stores its three low-order bytes the same way. *)
Theorem pressure_fields_little_endian (io : cycle_io)
    (b3 : ThreePacket.bufs) (b1 : list Z) (b2 : SimpleLoop.bufs) :
  sensor_value_ok (chan_val io SENSOR_CHAN_PRESS) ->
  ThreePacket.wf b3 -> Combined.wf b1 -> Reach.validated io -> SimpleLoop.wf b2 ->
  let press := chan_val io SENSOR_CHAN_PRESS in
  let b3' := final_state (ThreePacket.sensor_work_handler io b3) in
  let b1' := final_state (Combined.sensor_work_handler io b1) in
  let b2' := final_state (SimpleLoop.loop_body io b2) in
  (Encode.pressure_scaled press = to_int32 (pressure_two_stage press) /\
   (0 <= val2 press < 1000000 ->
    Encode.pressure_scaled press = pressure_two_stage press)) /\
  holds_le24 (ThreePacket.service_data_press b3')
    ThreePacket.IDX_PRESS_LOW ThreePacket.IDX_PRESS_MID ThreePacket.IDX_PRESS_HIGH
    (pressure_two_stage press) /\
  holds_le24 b1' Combined.IDX_PRESS_L Combined.IDX_PRESS_M Combined.IDX_PRESS_H
    (pressure_two_stage press) /\
  holds_le24 (SimpleLoop.service_data_press_gas b2')
    SimpleLoop.IDX_PRESS_LOW SimpleLoop.IDX_PRESS_MID SimpleLoop.IDX_PRESS_HIGH
    (pressure_loop press).
Proof.
  intros Hok H3 H1 Hv H2 press b3' b1' b2'. subst b3' b1' b2'.
  rewrite ThreePacketFacts.tp_handler_final_state,
    (ReachFacts.validated_final_state io b1 Hv),
    SimpleLoopFacts.sl_body_final_state.
  split; [| split; [| split]].
  - split; [by apply pressure_scaled_spec |].
    intros Hf. rewrite pressure_scaled_spec by exact Hok.
    apply to_int32_id, pressure_two_stage_range; [apply Hok | exact Hf].
  - by apply ThreePacketFields.tp_pressure_field.
  - by apply CombinedFields.cb_pressure_field.
  - by apply SimpleLoopFields.sl_pressure_field.
Qed.

(** The pressure (1013, 250000): 1001 = 0x0003E9 in the work-queue
    revisions, 1013025 = 0x0F7521 in the endless-loop revision. *)
Lemma pressure_fields_little_endian_witness :
  holds_le24 (final_state (Combined.sensor_work_handler Example.io_ok Combined.initial))
    Combined.IDX_PRESS_L Combined.IDX_PRESS_M Combined.IDX_PRESS_H 1001 /\
  holds_le24
    (SimpleLoop.service_data_press_gas
       (final_state (SimpleLoop.loop_body Example.io_ok SimpleLoop.initial)))
    SimpleLoop.IDX_PRESS_LOW SimpleLoop.IDX_PRESS_MID SimpleLoop.IDX_PRESS_HIGH
    1013025.
Proof.
  refine (proj2 (proj2
    (pressure_fields_little_endian Example.io_ok ThreePacket.initial
       Combined.initial SimpleLoop.initial _ _ _ _ _))).
  - split; unfold int32_range; simpl; lia.
  - repeat split.
  - reflexivity.
  - split; reflexivity.
  - split; reflexivity.
Defined.

(** C4.  With the fraction below one unit, [frac / 1000000] is 0 and the
    CO2 encoder's sum [co2.val1 + co2.val2 / 1000000] is the integer part
    exactly; the [uint16_t] variable holds the integer part as that type
    holds it (the integer part itself when it fits 16 bits), and the two
    bytes stored are those of the integer part, in both work-queue
    revisions. *)
Theorem co2_scaled_is_int_part (io : cycle_io)
    (b3 : ThreePacket.bufs) (b1 : list Z) :
  int32_range (val1 (chan_val io SENSOR_CHAN_CO2)) ->
  0 <= val2 (chan_val io SENSOR_CHAN_CO2) < 1000000 ->
  ThreePacket.wf b3 -> Combined.wf b1 -> Reach.validated io ->
  let co2 := chan_val io SENSOR_CHAN_CO2 in
  let b3' := final_state (ThreePacket.sensor_work_handler io b3) in
  let b1' := final_state (Combined.sensor_work_handler io b1) in
  val2 co2 ÷ 1000000 = 0 /\
  co2_units co2 = val1 co2 /\
  Encode.co2_sum co2 = val1 co2 /\
  Encode.co2_scaled co2 = to_uint16 (val1 co2) /\
  (uint16_range (val1 co2) -> Encode.co2_scaled co2 = val1 co2) /\
  holds_le16 (ThreePacket.service_data_voc_co2 b3')
    ThreePacket.IDX_CO2_LOW ThreePacket.IDX_CO2_HIGH (val1 co2) /\
  holds_le16 b1' Combined.IDX_CO2_L Combined.IDX_CO2_H (val1 co2).
Proof.
  intros Hi Hf H3 H1 Hv co2 b3' b1'. subst b3' b1'.
  rewrite ThreePacketFacts.tp_handler_final_state,
    (ReachFacts.validated_final_state io b1 Hv).
  assert (Hq : val2 co2 ÷ 1000000 = 0) by (apply Z.quot_small; exact Hf).
  assert (Hu : co2_units co2 = val1 co2) by (unfold co2_units; lia).
  assert (Hs : Encode.co2_sum co2 = val1 co2) by (by apply co2_sum_int_part).
  split; [exact Hq |]. split; [exact Hu |]. split; [exact Hs |].
  split; [unfold Encode.co2_scaled; by rewrite Hs |].
  split.
  { intros Hr. unfold Encode.co2_scaled. rewrite Hs. by apply to_uint16_id. }
  split.
  - rewrite <- Hu. by apply ThreePacketFields.tp_co2_field.
  - rewrite <- Hu. by apply CombinedFields.cb_co2_field.
Qed.

(** CO2 450.999999 is encoded as 450 = 0x01C2. *)
Lemma co2_scaled_is_int_part_witness :
  Encode.co2_scaled (SensorValue 450 999999) = 450 /\
  holds_le16
    (final_state
       (Combined.sensor_work_handler
          (Example.io_with SENSOR_CHAN_CO2 (SensorValue 450 999999))
          Combined.initial))
    Combined.IDX_CO2_L Combined.IDX_CO2_H 450.
Proof.
  pose proof (co2_scaled_is_int_part
    (Example.io_with SENSOR_CHAN_CO2 (SensorValue 450 999999))
    ThreePacket.initial Combined.initial) as H.
  simpl in H.
  destruct H as (_ & _ & _ & _ & Hfit & _ & Hbytes).
  - unfold int32_range; lia.
  - lia.
  - repeat split.
  - reflexivity.
  - split; reflexivity.
  - split; [apply Hfit; unfold uint16_range; lia | exact Hbytes].
Defined.

(** ** Layout of the buffers *)

(** Decidable facts on explicit offsets. *)
Ltac by_decide := simpl; refine (bool_decide_unpack _ _); vm_compute; exact I.

Lemma has_bytes_preserved (buf buf' : list Z) (offsets : list nat)
    (fixed : list (nat * Z)) :
  (forall i, i ∉ offsets -> buf' !! i = buf !! i) ->
  Forall (fun p => fst p ∉ offsets) fixed ->
  has_bytes buf fixed -> has_bytes buf' fixed.
Proof.
  intros Hframe Hout Hb. unfold has_bytes in *.
  induction Hout as [| p fixed Hp Hout IH]; [constructor |].
  inversion Hb as [| ? ? Hhd Htl]; subst.
  constructor; [rewrite Hframe; assumption | apply IH, Htl].
Qed.

Lemma three_packet_layout_initial : three_packet_layout ThreePacket.initial.
Proof.
  split; [repeat split |].
  split; [| split]; unfold has_bytes; repeat constructor.
Qed.

Lemma three_packet_layout_step io b :
  three_packet_layout b ->
  three_packet_layout (final_state (ThreePacket.sensor_work_handler io b)).
Proof.
  intros (Hwf & Hth & Hpr & Hvc).
  rewrite ThreePacketFacts.tp_handler_final_state.
  split; [by apply ThreePacketFacts.tp_encoded_wf |].
  split; [| split].
  - apply (has_bytes_preserved (ThreePacket.service_data_temp_hum b) _
             ThreePacket.temp_hum_offsets); [| | exact Hth].
    + apply ThreePacketFields.tp_temp_hum_frame.
    + repeat constructor; by_decide.
  - apply (has_bytes_preserved (ThreePacket.service_data_press b) _
             ThreePacket.press_offsets); [| | exact Hpr].
    + apply ThreePacketFields.tp_press_frame.
    + repeat constructor; by_decide.
  - apply (has_bytes_preserved (ThreePacket.service_data_voc_co2 b) _
             ThreePacket.voc_co2_offsets); [| | exact Hvc].
    + apply ThreePacketFields.tp_voc_co2_frame.
    + repeat constructor; by_decide.
Qed.

Lemma combined_layout_initial : combined_layout Combined.initial.
Proof. split; [reflexivity |]. unfold has_bytes; repeat constructor. Qed.

Lemma combined_layout_encoded io b :
  combined_layout b -> combined_layout (Combined.encoded io b).
Proof.
  intros (Hwf & Hb). split; [by apply CombinedFacts.cb_encoded_wf |].
  apply (has_bytes_preserved b _ Combined.value_offsets); [| | exact Hb].
  - apply CombinedFields.cb_frame.
  - repeat constructor; by_decide.
Qed.

Lemma combined_layout_step io b :
  combined_layout b ->
  combined_layout (final_state (Combined.sensor_work_handler io b)).
Proof.
  intros H. rewrite CombinedFacts.cb_handler_final_state.
  destruct (c_true (fetch_rc io)); [exact H |].
  destruct (Combined.invalid io); [exact H | by apply combined_layout_encoded].
Qed.

Lemma combined_frame_step io b (i : nat) :
  i ∉ Combined.value_offsets ->
  final_state (Combined.sensor_work_handler io b) !! i = b !! i.
Proof.
  intros Hi. rewrite CombinedFacts.cb_handler_final_state.
  destruct (c_true (fetch_rc io)); [reflexivity |].
  destruct (Combined.invalid io); [reflexivity | by apply CombinedFields.cb_frame].
Qed.

(** C5.  Every execution of the work handler keeps the length of each
    service-data buffer and every byte outside the value offsets; started
    from the initializers, after any number of cycles the buffers still
    have their declared lengths, the service id [0xD2, 0xFC], the format
    byte [0x40] and every tag byte at its offset. *)
Theorem work_handler_keeps_layout :
  (forall io b, ThreePacket.wf b ->
     let b' := final_state (ThreePacket.sensor_work_handler io b) in
     ThreePacket.wf b' /\
     (forall i : nat, i ∉ ThreePacket.temp_hum_offsets ->
        ThreePacket.service_data_temp_hum b' !! i = ThreePacket.service_data_temp_hum b !! i) /\
     (forall i : nat, i ∉ ThreePacket.press_offsets ->
        ThreePacket.service_data_press b' !! i = ThreePacket.service_data_press b !! i) /\
     (forall i : nat, i ∉ ThreePacket.voc_co2_offsets ->
        ThreePacket.service_data_voc_co2 b' !! i = ThreePacket.service_data_voc_co2 b !! i)) /\
  (forall io b, Combined.wf b ->
     let b' := final_state (Combined.sensor_work_handler io b) in
     Combined.wf b' /\
     (forall i : nat, i ∉ Combined.value_offsets -> b' !! i = b !! i)) /\
  (forall ios,
     three_packet_layout
       (final_state (run_cycles ThreePacket.sensor_work_handler ios ThreePacket.initial))) /\
  (forall ios,
     combined_layout
       (final_state (run_cycles Combined.sensor_work_handler ios Combined.initial))).
Proof.
  split; [| split; [| split]].
  - intros io b Hwf b'. subst b'.
    rewrite ThreePacketFacts.tp_handler_final_state.
    split; [by apply ThreePacketFacts.tp_encoded_wf |].
    split; [apply ThreePacketFields.tp_temp_hum_frame |].
    split; [apply ThreePacketFields.tp_press_frame |].
    apply ThreePacketFields.tp_voc_co2_frame.
  - intros io b Hwf b'. subst b'.
    split; [by apply CombinedFacts.cb_handler_wf |].
    intros i Hi. by apply combined_frame_step.
  - intros ios. apply run_cycles_invariant.
    + apply three_packet_layout_step.
    + apply three_packet_layout_initial.
  - intros ios. apply run_cycles_invariant.
    + apply combined_layout_step.
    + apply combined_layout_initial.
Qed.

(** After a successful and a failed cycle the combined buffer is 19 bytes
    long and the humidity tag is still at offset 6. *)
Lemma work_handler_keeps_layout_witness :
  let b' := final_state (run_cycles Combined.sensor_work_handler
                           [Example.io_ok; Example.io_fetch_failed] Combined.initial) in
  length b' = 19%nat /\ b' !! 6%nat = Some 0x03.
Proof.
  destruct (proj2 (proj2 (proj2 work_handler_keeps_layout))
              [Example.io_ok; Example.io_fetch_failed]) as [Hwf Hb].
  split; [exact Hwf |].
  unfold has_bytes, Combined.header_tags in Hb.
  rewrite !Forall_cons in Hb. exact (proj1 (proj2 (proj2 (proj2 (proj2 Hb))))).
Defined.

(** ** Skipped cycles *)

(** In the combined revision a failed fetch goes straight to
    [reschedule]. *)
Lemma combined_fetch_failure_skips io b :
  fetch_rc io ≠ 0 ->
  Combined.sensor_work_handler io b
  = (tt, b, [EvLog (LogFetchFailed (fetch_rc io));
             EvSchedule Combined.SENSOR_WORK_DELAY]).
Proof.
  intros Hrc.
  assert (Hc : c_true (fetch_rc io) = true).
  { unfold c_true. apply negb_true_iff, Z.eqb_neq, Hrc. }
  run_prog_step. rewrite Hc. reflexivity.
Qed.

(** C3 fails in the three-buffer revision: with [sensor_sample_fetch]
    returning -5 the handler logs, schedules the next cycle, and then goes
    on to read the channels, overwrite the value bytes of all three buffers
    and publish them; the placeholders of the initializers are gone. *)
Theorem three_packet_fetch_failure_still_encodes :
  final_state (ThreePacket.sensor_work_handler Example.io_fetch_failed ThreePacket.initial)
  = {| ThreePacket.service_data_temp_hum := [0xD2; 0xFC; 0x40; 0x02; 0xCA; 0x08; 0x03; 0x7C; 0x15];
       ThreePacket.service_data_press := [0xD2; 0xFC; 0x40; 0x04; 0xE9; 0x03; 0x00];
       ThreePacket.service_data_voc_co2 := [0xD2; 0xFC; 0x40; 0x13; 0xE8; 0x03; 0x12; 0x01; 0xC2] |}
  /\ final_state (ThreePacket.sensor_work_handler Example.io_fetch_failed ThreePacket.initial)
     ≠ ThreePacket.initial
  /\ trace (ThreePacket.sensor_work_handler Example.io_fetch_failed ThreePacket.initial)
     = [EvLog (LogFetchFailed (-5));
        EvSchedule (K_SECONDS 3);
        EvLog LogReadings;
        EvAdvUpdate AD_TEMP_HUM [0xD2; 0xFC; 0x40; 0x02; 0xCA; 0x08; 0x03; 0x7C; 0x15];
        EvSleep K_MSEC_BT_GAP_ADV_SLOW_INT_MIN;
        EvAdvUpdate AD_PRESS_GAS [0xD2; 0xFC; 0x40; 0x04; 0xE9; 0x03; 0x00];
        EvSleep K_MSEC_BT_GAP_ADV_SLOW_INT_MIN;
        EvAdvUpdate AD_VOC [0xD2; 0xFC; 0x40; 0x13; 0xE8; 0x03; 0x12; 0x01; 0xC2];
        EvSchedule (K_SECONDS 3)].
Proof.
  split; [vm_compute; reflexivity |].
  split; [| vm_compute; reflexivity].
  intros H. vm_compute in H. discriminate H.
Qed.

(** C6.  In the combined revision, when the fetch succeeded and the IAQ
    integer part is 0 (not yet ready) or the CO2 or VOC integer part is
    negative, the execution logs, stores nothing, publishes nothing and
    schedules the next cycle: the buffer is the one before the cycle. *)
Theorem invalid_readings_skip_update (io : cycle_io) (b : list Z) :
  fetch_rc io = 0 ->
  val1 (chan_val io SENSOR_CHAN_IAQ) = 0 \/
  val1 (chan_val io SENSOR_CHAN_CO2) < 0 \/
  val1 (chan_val io SENSOR_CHAN_VOC) < 0 ->
  Combined.sensor_work_handler io b
  = (tt, b, [EvLog LogInvalidValues; EvSchedule Combined.SENSOR_WORK_DELAY]).
Proof.
  intros Hrc Hbad.
  assert (Hinv : Combined.readings_invalid (chan_val io SENSOR_CHAN_IAQ)
                   (chan_val io SENSOR_CHAN_CO2) (chan_val io SENSOR_CHAN_VOC) = true).
  { unfold Combined.readings_invalid.
    destruct Hbad as [H | [H | H]].
    - apply Z.eqb_eq in H. rewrite H. reflexivity.
    - apply Z.ltb_lt in H. rewrite H. apply orb_true_iff. left. apply orb_true_r.
    - apply Z.ltb_lt in H. rewrite H. apply orb_true_r. }
  run_prog_step. rewrite Hrc, Hinv. reflexivity.
Qed.

(** A cycle whose IAQ reading is 0 leaves the initial buffer as it is. *)
Lemma invalid_readings_skip_update_witness :
  Combined.sensor_work_handler Example.io_iaq_zero Combined.initial
  = (tt, Combined.initial, [EvLog LogInvalidValues; EvSchedule (K_SECONDS 3)]).
Proof.
  apply (invalid_readings_skip_update Example.io_iaq_zero Combined.initial).
  - reflexivity.
  - left. reflexivity.
Defined.

(** ** Re-arming *)

Section RearmFacts.
Context {S : Type}.
Variable handler : cycle_io -> prog S unit.

Lemma run_cycles_trace_cons io ios s :
  trace (run_cycles handler (io :: ios) s)
  = trace (handler io s) ++
    trace (run_cycles handler ios (final_state (handler io s))).
Proof.
  simpl. unfold bind, trace, final_state.
  destruct (handler io s) as [[u s1] t1]. simpl.
  destruct (run_cycles handler ios s1) as [[u2 s2] t2]. reflexivity.
Qed.

Lemma rearm_count_app t1 t2 :
  rearm_count (t1 ++ t2) = (rearm_count t1 + rearm_count t2)%nat.
Proof. unfold rearm_count. rewrite filter_app, length_app. reflexivity. Qed.

(** When every execution re-arms at least once, [n] cycles re-arm at least
    [n] times: no cycle is the last one. *)
Lemma run_cycles_rearm_count :
  (forall io s, (1 <= rearm_count (trace (handler io s)))%nat) ->
  forall ios s,
    (length ios <= rearm_count (trace (run_cycles handler ios s)))%nat.
Proof.
  intros Hone ios. induction ios as [| io ios IH]; intros s.
  - simpl. lia.
  - rewrite run_cycles_trace_cons, rearm_count_app. simpl.
    specialize (Hone io s). specialize (IH (final_state (handler io s))). lia.
Qed.
End RearmFacts.

Lemma three_packet_rearm_count io b :
  rearm_count (trace (ThreePacket.sensor_work_handler io b))
  = if c_true (fetch_rc io) then 2%nat else 1%nat.
Proof. run_prog; reflexivity. Qed.

Lemma combined_rearm_count io b :
  rearm_count (trace (Combined.sensor_work_handler io b)) = 1%nat.
Proof.
  rewrite CombinedFacts.cb_handler_trace.
  destruct (c_true (fetch_rc io)); [reflexivity |].
  destruct (Combined.invalid io); [reflexivity |].
  destruct (c_true (adv_rc io 0)); reflexivity.
Qed.

Lemma simple_loop_rearm_count io b :
  rearm_count (trace (SimpleLoop.loop_body io b)) = 1%nat.
Proof. run_prog; reflexivity. Qed.

(** C8.  Whatever the collaborators answer (fetch failure, rejected
    readings, failed advertising update, or success), the last call of an
    execution of the work handler is [k_work_schedule] with the 3 second
    delay, and the last call of one pass of the endless loop is the
    5 minute sleep after which the loop starts over; no path ends an
    execution without it, so any number of cycles, failed or not, re-arms
    at least that many times. *)
Theorem every_execution_ends_with_rearm :
  (forall io b,
     last (trace (ThreePacket.sensor_work_handler io b)) = Some (EvSchedule (K_SECONDS 3))) /\
  (forall io b,
     last (trace (Combined.sensor_work_handler io b)) = Some (EvSchedule (K_SECONDS 3))) /\
  (forall io b,
     last (trace (SimpleLoop.loop_body io b)) = Some (EvSleep (K_MINUTES 5))) /\
  (forall ios b,
     (length ios
      <= rearm_count (trace (run_cycles ThreePacket.sensor_work_handler ios b)))%nat) /\
  (forall ios b,
     (length ios
      <= rearm_count (trace (run_cycles Combined.sensor_work_handler ios b)))%nat) /\
  (forall ios b,
     (length ios
      <= rearm_count (trace (run_cycles SimpleLoop.loop_body ios b)))%nat).
Proof.
  split; [| split; [| split; [| split; [| split]]]].
  - apply ThreePacketFacts.tp_handler_trace_last.
  - apply CombinedFacts.cb_handler_trace_last.
  - apply SimpleLoopFacts.sl_body_trace_last.
  - apply run_cycles_rearm_count. intros io s.
    rewrite three_packet_rearm_count. destruct (c_true (fetch_rc io)); lia.
  - apply run_cycles_rearm_count. intros io s.
    rewrite combined_rearm_count. lia.
  - apply run_cycles_rearm_count. intros io s.
    rewrite simple_loop_rearm_count. lia.
Qed.

(** ** Channels and the payload *)

(** A channel without a tag in the buffer does not reach the payload. *)
Lemma unencoded_channel_does_not_reach (c : sensor_channel) :
  c ∉ Reach.encoded_channels -> ~ Reach.channel_reaches_payload c.
Proof.
  intros Hc (io & io' & b & _ & Hv & Hv' & (_ & _ & Hsame) & Hne).
  apply Hne.
  rewrite (ReachFacts.validated_final_state io b Hv),
    (ReachFacts.validated_final_state io' b Hv').
  apply ReachFacts.encoded_ext. intros c' Hc'.
  apply Hsame. intros ->. exact (Hc Hc').
Qed.

(** Replacing the value of one encoded channel of the example by zero
    changes the service data. *)
Lemma encoded_channel_reaches (c : sensor_channel) :
  c ∈ Reach.encoded_channels -> Reach.channel_reaches_payload c.
Proof.
  intros Hc.
  exists Example.io_ok, (Example.io_with c (SensorValue 0 0)), Combined.initial.
  split; [reflexivity |].
  split; [apply ReachFacts.example_validated |].
  unfold Reach.encoded_channels in Hc.
  repeat (apply elem_of_cons in Hc as [-> | Hc]); [.. | by apply elem_of_nil in Hc].
  all: split; [split; reflexivity |].
  all: split;
    [ split; [reflexivity |]; split; [reflexivity |];
      intros c' Hc'; simpl; unfold Example.sample_with;
      destruct (decide _) as [-> | _]; [by destruct Hc' | reflexivity]
    | intros H; vm_compute in H; discriminate H ].
Qed.

(** C7, as stated, fails for IAQ: two validated cycles that differ in the
    IAQ value only always leave the same service data. *)
Lemma iaq_does_not_reach_payload :
  ~ Reach.channel_reaches_payload SENSOR_CHAN_IAQ.
Proof. apply unencoded_channel_does_not_reach. by_decide. Qed.

(** C7, amended.  For every validated cycle of the combined revision the
    encoding stage writes five channels into the buffer that is then
    published: temperature, humidity, pressure, VOC and CO2 each determine
    their value bytes.  These five are exactly the channels that reach the
    payload; the IAQ value is used by the validation only. *)
Theorem encoding_writes_five_channels :
  (forall io b,
     Combined.wf b -> cycle_io_ok io -> Reach.validated io ->
     let b' := final_state (Combined.sensor_work_handler io b) in
     holds_le16 b' Combined.IDX_TEMP_L Combined.IDX_TEMP_H
       (centi (chan_val io SENSOR_CHAN_AMBIENT_TEMP)) /\
     holds_le16 b' Combined.IDX_HUMID_L Combined.IDX_HUMID_H
       (centi (chan_val io SENSOR_CHAN_HUMIDITY)) /\
     holds_le24 b' Combined.IDX_PRESS_L Combined.IDX_PRESS_M Combined.IDX_PRESS_H
       (pressure_two_stage (chan_val io SENSOR_CHAN_PRESS)) /\
     holds_le16 b' Combined.IDX_VOC_L Combined.IDX_VOC_H
       (centi (chan_val io SENSOR_CHAN_VOC)) /\
     holds_le16 b' Combined.IDX_CO2_L Combined.IDX_CO2_H
       (co2_units (chan_val io SENSOR_CHAN_CO2)) /\
     EvAdvUpdate AD_COMBINED b' ∈ trace (Combined.sensor_work_handler io b)) /\
  (forall c, Reach.channel_reaches_payload c <-> c ∈ Reach.encoded_channels).
Proof.
  split.
  - intros io b Hwf Hok Hv b'. subst b'.
    rewrite (ReachFacts.validated_final_state io b Hv),
      (ReachFacts.validated_trace io b Hv).
    split; [by apply CombinedFields.cb_temp_field |].
    split; [by apply CombinedFields.cb_humidity_field |].
    split; [apply CombinedFields.cb_pressure_field; [exact Hwf | apply Hok] |].
    split; [by apply CombinedFields.cb_voc_field |].
    split; [by apply CombinedFields.cb_co2_field |].
    simpl. apply list_elem_of_further, list_elem_of_here.
  - intros c. split.
    + intros Hreach.
      destruct (decide (c ∈ Reach.encoded_channels)) as [Hin | Hout]; [exact Hin |].
      destruct (unencoded_channel_does_not_reach c Hout Hreach).
    + apply encoded_channel_reaches.
Qed.

(** The example cycle publishes CO2 450 as [0xC2, 0x01] at offsets 17, 18,
    and temperature reaches the payload. *)
Lemma encoding_writes_five_channels_witness :
  holds_le16
    (final_state (Combined.sensor_work_handler Example.io_ok Combined.initial))
    Combined.IDX_CO2_L Combined.IDX_CO2_H 450 /\
  Reach.channel_reaches_payload SENSOR_CHAN_AMBIENT_TEMP.
Proof.
  destruct encoding_writes_five_channels as [Hfields Hreach].
  split.
  - refine (proj1 (proj2 (proj2 (proj2 (proj2
      (Hfields Example.io_ok Combined.initial _ _ _)))))).
    + reflexivity.
    + intros ch. destruct ch; split; unfold int32_range; simpl; lia.
    + apply ReachFacts.example_validated.
  - apply Hreach. unfold Reach.encoded_channels. apply list_elem_of_here.
Defined.

(** ** Current Time Service callbacks *)

Section TimeFacts.
Import TimeApp.
Context {rtc_dev : Type}.
Variable rtc_set_time : rtc_dev -> rtc_time -> Z * rtc_dev.
Variable rtc_get_time : rtc_dev -> Z * rtc_time.

(** A successful read fills the struct from the clock's reading. *)
Lemma cts_time_read_success cts0 rtc ret tm :
  rtc_get_time rtc = (ret, tm) -> 0 <= ret ->
  cts_time_read rtc_get_time cts0 rtc
  = (0, {| year := to_uint16 (add32 (tm_year tm) 1900);
           mon := to_uint8 (add32 (tm_mon tm) 1);
           mday := to_uint8 (tm_mday tm);
           hours := to_uint8 (tm_hour tm);
           min := to_uint8 (tm_min tm);
           sec := to_uint8 (tm_sec tm);
           wday := to_uint8 (add32 (rem32 (add32 (tm_wday tm) 7) 7) 1);
           fractions256 := fractions256 cts0;
           reason := reason cts0 |}).
Proof.
  intros Hget Hret. unfold cts_time_read. rewrite Hget.
  destruct (Z.ltb_spec ret 0) as [Hneg | _]; [lia | reflexivity].
Qed.

(** The remap of the weekday as the code computes it: one more than the
    clock's number. *)
Lemma wday_remap (w : Z) :
  0 <= w <= 6 -> to_uint8 (add32 (rem32 (add32 w 7) 7) 1) = w + 1.
Proof.
  intros Hw. unfold add32, rem32.
  rewrite (to_int32_id (w + 7)) by (unfold int32_range; lia).
  assert (Hrem : Z.rem (w + 7) 7 = w) by quot_lia.
  rewrite Hrem.
  rewrite (to_int32_id w) by (unfold int32_range; lia).
  rewrite (to_int32_id (w + 1)) by (unfold int32_range; lia).
  apply to_uint8_id. unfold uint8_range. lia.
Qed.

Lemma year_roundtrip (y : Z) :
  uint16_range y -> to_uint16 (add32 (sub32 y 1900) 1900) = y.
Proof.
  unfold uint16_range. intros Hy. unfold add32, sub32.
  rewrite (to_int32_id (y - 1900)) by (unfold int32_range; lia).
  replace (y - 1900 + 1900) with y by lia.
  rewrite (to_int32_id y) by (unfold int32_range; lia).
  by apply to_uint16_id.
Qed.

Lemma mon_roundtrip (m : Z) :
  uint8_range m -> to_uint8 (add32 (sub32 m 1) 1) = m.
Proof.
  unfold uint8_range. intros Hm. unfold add32, sub32.
  rewrite (to_int32_id (m - 1)) by (unfold int32_range; lia).
  replace (m - 1 + 1) with m by lia.
  rewrite (to_int32_id m) by (unfold int32_range; lia).
  by apply to_uint8_id.
Qed.

(** C10.  On a clock that stores exactly the date and time written, for a
    wire time [t] whose fields fit their wire types: when
    [cts_time_write t] succeeds, a subsequent successful [cts_time_read] on
    the device the write left returns year, month, day of month, hours,
    minutes and seconds equal to those of [t]. *)
Theorem cts_write_read_roundtrip (t cts0 : bt_cts_time_format)
    (rtc rtc' : rtc_dev) :
  clock_keeps_datetime rtc_set_time rtc_get_time ->
  cts_time_ok t ->
  cts_time_write rtc_set_time t rtc = (0, rtc') ->
  0 <= fst (rtc_get_time rtc') ->
  let r := cts_time_read rtc_get_time cts0 rtc' in
  fst r = 0 /\
  year (snd r) = year t /\ mon (snd r) = mon t /\ mday (snd r) = mday t /\
  hours (snd r) = hours t /\ min (snd r) = min t /\ sec (snd r) = sec t.
Proof.
  intros Hlaw (Hy & Hmo & Hd & Hh & Hmi & Hs) Hwrite Hret r. subst r.
  destruct (rtc_get_time rtc') as [ret tm] eqn:Hget. simpl in Hret.
  unfold cts_time_write in Hwrite.
  destruct (Hlaw rtc rtc' (rtc_time_of_cts t) tm ret Hwrite Hget Hret)
    as (Ey & Emo & Ed & Eh & Emi & Es).
  rewrite (cts_time_read_success cts0 rtc' ret tm Hget Hret).
  simpl in *. rewrite Ey, Emo, Ed, Eh, Emi, Es.
  split; [reflexivity |].
  split; [by apply year_roundtrip |].
  split; [by apply mon_roundtrip |].
  repeat split; by apply to_uint8_id.
Qed.

End TimeFacts.

(** The clock that keeps the struct it was given stores the date and time
    written. *)
Lemma register_clock_keeps_datetime :
  clock_keeps_datetime TimeApp.register_set_time TimeApp.register_get_time.
Proof.
  intros rtc rtc' tm tm' ret Hset Hget _.
  unfold TimeApp.register_set_time in Hset. unfold TimeApp.register_get_time in Hget.
  injection Hset as <-. injection Hget as _ <-. repeat split.
Defined.

(** 2025-03-09 14:30:45 written to a clock that keeps what it is given, and
    read back from the device the write left. *)
Lemma cts_write_read_roundtrip_witness :
  let written :=
    TimeApp.cts_time_write TimeApp.register_set_time Example.cts_time
      (TimeApp.reading_on TimeApp.Sunday) in
  let r := TimeApp.cts_time_read TimeApp.register_get_time Example.cts_time
             (snd written) in
  fst written = 0 /\ fst r = 0 /\
  TimeApp.year (snd r) = 2025 /\ TimeApp.mon (snd r) = 3 /\ TimeApp.mday (snd r) = 9 /\
  TimeApp.hours (snd r) = 14 /\ TimeApp.min (snd r) = 30 /\ TimeApp.sec (snd r) = 45.
Proof.
  split; [reflexivity |].
  apply (cts_write_read_roundtrip TimeApp.register_set_time TimeApp.register_get_time
           Example.cts_time Example.cts_time (TimeApp.reading_on TimeApp.Sunday)
           (snd (TimeApp.cts_time_write TimeApp.register_set_time Example.cts_time
                   (TimeApp.reading_on TimeApp.Sunday)))).
  - apply register_clock_keeps_datetime.
  - repeat split; simpl; lia.
  - reflexivity.
  - simpl. lia.
Defined.

(** C9 fails on the weekday numbering: for the clock's weekday [d] (Sunday
    = 0) a successful [cts_time_read] returns [d + 1], which is in 1..7 but
    is never the number the convention 1 = Monday, ..., 7 = Sunday gives to
    that day: Monday is returned as 2 and Sunday as 1. *)
Theorem cts_time_read_weekday_shifted (d : TimeApp.weekday)
    (cts0 : TimeApp.bt_cts_time_format) :
  let r := TimeApp.cts_time_read TimeApp.register_get_time cts0 (TimeApp.reading_on d) in
  fst r = 0 /\
  TimeApp.wday (snd r) = TimeApp.tm_wday_of d + 1 /\
  1 <= TimeApp.wday (snd r) <= 7 /\
  TimeApp.wday (snd r) ≠ TimeApp.cts_wday_of d.
Proof.
  intros r. subst r.
  rewrite (cts_time_read_success TimeApp.register_get_time cts0
             (TimeApp.reading_on d) 0 (TimeApp.reading_on d) eq_refl ltac:(lia)).
  simpl. rewrite wday_remap by (destruct d; simpl; lia).
  destruct d; simpl; repeat split; lia.
Qed.

(** * Further properties of the sensor application *)

(** A list of known length, element by element. *)
Ltac explode_list l H :=
  repeat (destruct l as [| ? l]; [by (simpl in H; lia) |]);
  destruct l; [| by (simpl in H; lia)].

(** ** Every cycle overwrites all value bytes *)

Lemma three_packet_encoded_twice io1 io2 b :
  ThreePacket.wf b ->
  ThreePacket.encoded io2 (ThreePacket.encoded io1 b) = ThreePacket.encoded io2 b.
Proof.
  intros (H1 & H2 & H3). destruct b as [th pr vc]. simpl in H1, H2, H3.
  unfold ThreePacket.SERVICE_DATA_TEMP_HUM_LEN, ThreePacket.SERVICE_DATA_PRESS_GAS_LEN,
    ThreePacket.SERVICE_DATA_VOC_LEN in *.
  explode_list th H1. explode_list pr H2. explode_list vc H3. reflexivity.
Qed.

Lemma combined_encoded_twice io1 io2 b :
  Combined.wf b ->
  Combined.encoded io2 (Combined.encoded io1 b) = Combined.encoded io2 b.
Proof.
  unfold Combined.wf, Combined.SERVICE_DATA_COMBINED_LEN. intros H.
  explode_list b H. reflexivity.
Qed.

Lemma simple_loop_encoded_twice io1 io2 b :
  SimpleLoop.wf b ->
  SimpleLoop.encoded io2 (SimpleLoop.encoded io1 b) = SimpleLoop.encoded io2 b.
Proof.
  intros (H1 & H2). destruct b as [th pr]. simpl in H1, H2.
  unfold SimpleLoop.SERVICE_DATA_TEMP_HUM_LEN, SimpleLoop.SERVICE_DATA_PRESS_GAS_LEN in *.
  explode_list th H1. explode_list pr H2. reflexivity.
Qed.

(** X1.  Three-buffer revision: after any non-empty run of cycles the three
    buffers are exactly what the last cycle's readings give on the buffers
    the run started from; no value byte of an earlier cycle survives, and a
    failed fetch does not keep the last cycle from overwriting them. *)
Theorem three_packet_last_cycle_wins (ios : list cycle_io) (io : cycle_io)
    (b : ThreePacket.bufs) :
  ThreePacket.wf b ->
  last ios = Some io ->
  final_state (run_cycles ThreePacket.sensor_work_handler ios b)
  = ThreePacket.encoded io b.
Proof.
  intros Hwf. revert b Hwf.
  induction ios as [| io1 ios IH]; intros b Hwf Hlast; [discriminate Hlast |].
  rewrite run_cycles_final_state_cons, ThreePacketFacts.tp_handler_final_state.
  destruct ios as [| io2 ios].
  - simpl in Hlast. injection Hlast as ->. reflexivity.
  - rewrite (IH (ThreePacket.encoded io1 b)).
    + by apply three_packet_encoded_twice.
    + by apply ThreePacketFacts.tp_encoded_wf.
    + exact Hlast.
Qed.

(** A failed cycle after a good one replaces the good values by whatever
    the channels hold then. *)
Lemma three_packet_last_cycle_wins_witness :
  final_state (run_cycles ThreePacket.sensor_work_handler
                 [Example.io_ok;
                  {| fetch_rc := -5;
                     chan_val := fun _ => SensorValue 0 0;
                     adv_rc := fun _ => 0 |}]
                 ThreePacket.initial)
  = ThreePacket.initial.
Proof.
  rewrite (three_packet_last_cycle_wins _
             {| fetch_rc := -5; chan_val := fun _ => SensorValue 0 0;
                adv_rc := fun _ => 0 |} ThreePacket.initial).
  - reflexivity.
  - repeat split.
  - reflexivity.
Defined.

(** X2.  Combined revision: after any run of cycles the buffer holds the
    encoding of the last cycle that fetched successfully and passed the
    validation, applied to the buffer the run started from; when there was
    none the buffer is untouched.  Skipped cycles leave the last good
    payload in place, and a good cycle leaves nothing of the earlier
    ones. *)
Theorem combined_last_validated_cycle_wins (ios : list cycle_io) (b : list Z) :
  Combined.wf b ->
  final_state (run_cycles Combined.sensor_work_handler ios b)
  = match last_validated ios with
    | Some io => Combined.encoded io b
    | None => b
    end.
Proof.
  revert b. induction ios as [| io ios IH]; intros b Hwf; [reflexivity |].
  rewrite run_cycles_final_state_cons.
  rewrite (IH _ (CombinedFacts.cb_handler_wf io b Hwf)).
  rewrite CombinedFacts.cb_handler_final_state. simpl.
  destruct (last_validated ios) as [io' |].
  - destruct (c_true (fetch_rc io)); [reflexivity |].
    destruct (Combined.invalid io); [reflexivity |].
    by apply combined_encoded_twice.
  - destruct (c_true (fetch_rc io)); [reflexivity |].
    destruct (Combined.invalid io); reflexivity.
Qed.

(** A good cycle followed by a failed fetch and by a cycle with IAQ 0. *)
Lemma combined_last_validated_cycle_wins_witness :
  final_state (run_cycles Combined.sensor_work_handler
                 [Example.io_ok; Example.io_fetch_failed; Example.io_iaq_zero]
                 Combined.initial)
  = Combined.encoded Example.io_ok Combined.initial.
Proof.
  rewrite (combined_last_validated_cycle_wins
             [Example.io_ok; Example.io_fetch_failed; Example.io_iaq_zero]
             Combined.initial).
  - reflexivity.
  - reflexivity.
Defined.

(** ** What a cycle asks of the kernel and the stack *)

(** X3.  Three-buffer revision: whatever the fetch and the three
    advertising updates return, the calls of one execution other than log
    lines are the same sequence: the three updates in the order
    temperature/humidity, pressure, VOC/CO2, each carrying its buffer as it
    is after all eleven stores, a dwell sleep after the first and after the
    second, and [k_work_schedule] last.  A failed fetch only puts one more
    [k_work_schedule] in front; a failed update stops nothing. *)
Theorem three_packet_calls (io : cycle_io) (b : ThreePacket.bufs) :
  calls (trace (ThreePacket.sensor_work_handler io b))
  = (if c_true (fetch_rc io) then [EvSchedule ThreePacket.SENSOR_WORK_DELAY] else [])
    ++ [EvAdvUpdate AD_TEMP_HUM
          (ThreePacket.service_data_temp_hum (ThreePacket.encoded io b));
        EvSleep K_MSEC_BT_GAP_ADV_SLOW_INT_MIN;
        EvAdvUpdate AD_PRESS_GAS
          (ThreePacket.service_data_press (ThreePacket.encoded io b));
        EvSleep K_MSEC_BT_GAP_ADV_SLOW_INT_MIN;
        EvAdvUpdate AD_VOC
          (ThreePacket.service_data_voc_co2 (ThreePacket.encoded io b));
        EvSchedule ThreePacket.SENSOR_WORK_DELAY].
Proof. run_prog; reflexivity. Qed.

(** X4.  Combined revision: an execution makes at most one advertising
    update, exactly when the fetch succeeded and the readings are valid;
    the update carries the buffer as it is after all eleven stores, which
    is also the buffer the execution leaves.  A skipped cycle makes no call
    but [k_work_schedule], and the return code of the update changes
    nothing but a log line. *)
Theorem combined_calls (io : cycle_io) (b : list Z) :
  calls (trace (Combined.sensor_work_handler io b))
  = (if c_true (fetch_rc io) || Combined.invalid io then []
     else [EvAdvUpdate AD_COMBINED
             (final_state (Combined.sensor_work_handler io b))])
    ++ [EvSchedule Combined.SENSOR_WORK_DELAY].
Proof.
  rewrite CombinedFacts.cb_handler_trace, CombinedFacts.cb_handler_final_state.
  destruct (c_true (fetch_rc io)); [reflexivity |].
  destruct (Combined.invalid io); [reflexivity |].
  destruct (c_true (adv_rc io 0)); reflexivity.
Qed.

(** ** Byte order of the CO2 field *)

(** X5.  In the three-buffer revision the two bytes after the CO2 tag
    (offsets 7 and 8) are the high byte first, then the low byte: read as
    a little-endian field they give the value with its bytes swapped, which
    is the CO2 value only when both bytes are equal.  In the combined
    revision the same two bytes (offsets 17 and 18) read little-endian give
    the value. *)
Theorem co2_byte_order (io : cycle_io) (b3 : ThreePacket.bufs) (b1 : list Z) :
  ThreePacket.wf b3 -> Combined.wf b1 -> Reach.validated io ->
  uint16_range (co2_units (chan_val io SENSOR_CHAN_CO2)) ->
  let x := co2_units (chan_val io SENSOR_CHAN_CO2) in
  let b3' := ThreePacket.service_data_voc_co2
               (final_state (ThreePacket.sensor_work_handler io b3)) in
  let b1' := final_state (Combined.sensor_work_handler io b1) in
  (exists first second : Z,
     b3' !! 7%nat = Some first /\ b3' !! 8%nat = Some second /\
     second + 256 * first = x /\
     (first + 256 * second = x <-> first = second)) /\
  (exists first second : Z,
     b1' !! 17%nat = Some first /\ b1' !! 18%nat = Some second /\
     first + 256 * second = x).
Proof.
  intros H3 H1 Hv Hr x b3' b1'. subst b3' b1'.
  rewrite ThreePacketFacts.tp_handler_final_state,
    (ReachFacts.validated_final_state io b1 Hv).
  pose proof (le16_decode x) as Hdec.
  rewrite (to_uint16_id x Hr) in Hdec.
  split.
  - destruct (ThreePacketFields.tp_co2_field io b3 H3) as [Hlo Hhi].
    exists (byte1 x), (byte0 x).
    split; [exact Hhi |]. split; [exact Hlo |]. split; [exact Hdec |]. lia.
  - destruct (CombinedFields.cb_co2_field io b1 H1) as [Hlo Hhi].
    exists (byte0 x), (byte1 x).
    split; [exact Hlo |]. split; [exact Hhi |]. exact Hdec.
Qed.

(** CO2 450 = 0x01C2: offsets 7, 8 of the three-buffer revision hold
    [0x01, 0xC2]. *)
Lemma co2_byte_order_witness :
  ThreePacket.service_data_voc_co2
    (final_state (ThreePacket.sensor_work_handler Example.io_ok ThreePacket.initial))
    !! 7%nat = Some 0x01 /\
  exists first second : Z,
    final_state (Combined.sensor_work_handler Example.io_ok Combined.initial)
      !! 17%nat = Some first /\
    final_state (Combined.sensor_work_handler Example.io_ok Combined.initial)
      !! 18%nat = Some second /\
    first + 256 * second = 450.
Proof.
  split; [reflexivity |].
  refine (proj2 (co2_byte_order Example.io_ok ThreePacket.initial Combined.initial
                   _ _ _ _)).
  - repeat split.
  - reflexivity.
  - apply ReachFacts.example_validated.
  - unfold uint16_range. split; vm_compute; discriminate.
Defined.

(** ** The two-stage pressure value *)

(** X6.  For a non-negative integer part and a fraction below one unit the
    two-stage pressure value does not depend on the fraction: it is the
    integer part with its last two digits replaced by its tens digit,
    [i - i mod 100 + (i mod 100) / 10], at most 99 below the integer
    part. *)
Theorem pressure_scaled_closed_form (press : sensor_value) :
  0 <= val1 press <= 2147483647 ->
  0 <= val2 press < 1000000 ->
  Encode.pressure_scaled press
  = val1 press - val1 press mod 100 + (val1 press mod 100) / 10 /\
  val1 press - 99 <= Encode.pressure_scaled press <= val1 press /\
  Encode.pressure_scaled press
  = Encode.pressure_scaled (SensorValue (val1 press) 0).
Proof.
  intros Hi Hf.
  assert (Hok : sensor_value_ok press)
    by (split; unfold int32_range; lia).
  assert (Hok0 : sensor_value_ok (SensorValue (val1 press) 0))
    by (split; unfold int32_range; simpl; lia).
  assert (Hexact : forall v, sensor_value_ok v -> 0 <= val1 v ->
            0 <= val2 v < 1000000 ->
            Encode.pressure_scaled v
            = val1 v - val1 v mod 100 + (val1 v mod 100) / 10).
  { intros v Hv Hv1 Hv2.
    rewrite (pressure_scaled_spec v Hv).
    rewrite to_int32_id
      by (apply pressure_two_stage_range; [apply Hv | exact Hv2]).
    unfold pressure_two_stage.
    rewrite (Z.quot_small (val2 v)) by lia.
    rewrite Z.add_0_r. quot_lia. }
  rewrite (Hexact press Hok) by lia.
  rewrite (Hexact (SensorValue (val1 press) 0) Hok0) by (simpl; lia).
  split; [reflexivity |]. split; [| reflexivity].
  quot_lia.
Qed.

(** 101325 Pa with any fraction is sent as 101302. *)
Lemma pressure_scaled_closed_form_witness :
  Encode.pressure_scaled (SensorValue 101325 999999) = 101302.
Proof.
  rewrite (proj1 (pressure_scaled_closed_form (SensorValue 101325 999999)
                    ltac:(simpl; lia) ltac:(simpl; lia))).
  reflexivity.
Defined.

(** ** The payload as a receiver reads it *)

Lemma le16_read_unsigned x : uint16_range x -> byte0 x + 256 * byte1 x = x.
Proof. intros Hr. rewrite le16_decode. by apply to_uint16_id. Qed.

Lemma le16_read_signed x : int16_range x -> to_int16 (byte0 x + 256 * byte1 x) = x.
Proof.
  intros Hr. rewrite le16_decode.
  transitivity (to_int16 x); [apply wrap_signed_of_cong, to_uint16_cong |].
  by apply to_int16_id.
Qed.

Lemma le24_read_unsigned x :
  0 <= x < 16777216 -> byte0 x + 256 * byte1 x + 65536 * byte2 x = x.
Proof. intros Hr. rewrite le24_decode. apply Z.mod_small. simpl. lia. Qed.

(** X7.  Combined revision: when the buffer has its header and tags and the
    five scaled values fit their fields, the service data left (and
    published) by a validated cycle parses as the five objects
    temperature, humidity, pressure, VOC, CO2, in this order, with exactly
    the scaled values of the cycle's readings. *)
Theorem combined_payload_round_trip (io : cycle_io) (b : list Z) :
  combined_layout b -> Reach.validated io -> cycle_io_ok io ->
  int16_range (centi (chan_val io SENSOR_CHAN_AMBIENT_TEMP)) ->
  uint16_range (centi (chan_val io SENSOR_CHAN_HUMIDITY)) ->
  0 <= pressure_two_stage (chan_val io SENSOR_CHAN_PRESS) < 16777216 ->
  uint16_range (centi (chan_val io SENSOR_CHAN_VOC)) ->
  uint16_range (co2_units (chan_val io SENSOR_CHAN_CO2)) ->
  Receiver.parse_service_data (final_state (Combined.sensor_work_handler io b))
  = Some [(0x02, centi (chan_val io SENSOR_CHAN_AMBIENT_TEMP));
          (0x03, centi (chan_val io SENSOR_CHAN_HUMIDITY));
          (0x04, pressure_two_stage (chan_val io SENSOR_CHAN_PRESS));
          (0x13, centi (chan_val io SENSOR_CHAN_VOC));
          (0x12, co2_units (chan_val io SENSOR_CHAN_CO2))].
Proof.
  intros Hlay Hv Hok Ht Hh Hp Hvoc Hc.
  rewrite (ReachFacts.validated_final_state io b Hv).
  destruct (combined_layout_encoded io b Hlay) as [Hwf' Htags].
  destruct Hlay as [Hwf _].
  destruct (CombinedFields.cb_temp_field io b Hwf) as [Ht0 Ht1].
  destruct (CombinedFields.cb_humidity_field io b Hwf) as [Hh0 Hh1].
  destruct (CombinedFields.cb_pressure_field io b Hwf (Hok SENSOR_CHAN_PRESS))
    as (Hp0 & Hp1 & Hp2).
  destruct (CombinedFields.cb_voc_field io b Hwf) as [Hv0 Hv1].
  destruct (CombinedFields.cb_co2_field io b Hwf) as [Hc0 Hc1].
  unfold has_bytes, Combined.header_tags in Htags.
  rewrite !Forall_cons in Htags.
  destruct Htags as (T0 & T1 & T2 & T3 & T6 & T9 & T13 & T16 & _).
  unfold Combined.wf, Combined.SERVICE_DATA_COMBINED_LEN in Hwf'.
  generalize dependent (Combined.encoded io b). intros b'. intros.
  explode_list b' Hwf'.
  cbn in T0, T1, T2, T3, T6, T9, T13, T16, Ht0, Ht1, Hh0, Hh1, Hp0, Hp1, Hp2,
    Hv0, Hv1, Hc0, Hc1.
  simplify_eq.
  cbn [Receiver.parse_service_data Receiver.parse_objects].
  change (Some
    [(2, Receiver.object_value 2
           (byte0 (centi (chan_val io SENSOR_CHAN_AMBIENT_TEMP))
            + 256 * byte1 (centi (chan_val io SENSOR_CHAN_AMBIENT_TEMP))));
     (3, byte0 (centi (chan_val io SENSOR_CHAN_HUMIDITY))
         + 256 * byte1 (centi (chan_val io SENSOR_CHAN_HUMIDITY)));
     (4, byte0 (pressure_two_stage (chan_val io SENSOR_CHAN_PRESS))
         + 256 * byte1 (pressure_two_stage (chan_val io SENSOR_CHAN_PRESS))
         + 65536 * byte2 (pressure_two_stage (chan_val io SENSOR_CHAN_PRESS)));
     (19, byte0 (centi (chan_val io SENSOR_CHAN_VOC))
          + 256 * byte1 (centi (chan_val io SENSOR_CHAN_VOC)));
     (18, byte0 (co2_units (chan_val io SENSOR_CHAN_CO2))
          + 256 * byte1 (co2_units (chan_val io SENSOR_CHAN_CO2)))]
    = Some
    [(2, centi (chan_val io SENSOR_CHAN_AMBIENT_TEMP));
     (3, centi (chan_val io SENSOR_CHAN_HUMIDITY));
     (4, pressure_two_stage (chan_val io SENSOR_CHAN_PRESS));
     (19, centi (chan_val io SENSOR_CHAN_VOC));
     (18, co2_units (chan_val io SENSOR_CHAN_CO2))]).
  change (Receiver.object_value 2 ?x) with (to_int16 x).
  rewrite (le16_read_signed _ Ht), (le16_read_unsigned _ Hh),
    (le24_read_unsigned _ Hp), (le16_read_unsigned _ Hvoc),
    (le16_read_unsigned _ Hc).
  reflexivity.
Qed.

(** The end-to-end sample parses as 22.50 degrees, 55.00 percent, 1001,
    VOC 1000 and CO2 450. *)
Lemma combined_payload_round_trip_witness :
  Receiver.parse_service_data
    (final_state (Combined.sensor_work_handler Example.io_ok Combined.initial))
  = Some [(0x02, 2250); (0x03, 5500); (0x04, 1001); (0x13, 1000); (0x12, 450)].
Proof.
  apply (combined_payload_round_trip Example.io_ok Combined.initial).
  - apply combined_layout_initial.
  - apply ReachFacts.example_validated.
  - intros ch. destruct ch; split; unfold int32_range; simpl; lia.
  - split; vm_compute; discriminate.
  - split; vm_compute; discriminate.
  - split; [vm_compute; discriminate | reflexivity].
  - split; vm_compute; discriminate.
  - split; vm_compute; discriminate.
Defined.

(** ** Start-up *)

Lemma c_true_false_iff (z : Z) : c_true z = false <-> z = 0.
Proof.
  unfold c_true. rewrite negb_false_iff. apply Z.eqb_eq.
Qed.

Lemma c_true_true_iff (z : Z) : c_true z = true <-> z ≠ 0.
Proof.
  unfold c_true. rewrite negb_true_iff. apply Z.eqb_neq.
Qed.

(** Membership of the first schedule call in an explicit list of start-up
    events. *)
Ltac schedule_in :=
  unfold Startup.schedules_first_cycle;
  repeat first [rewrite elem_of_app | rewrite elem_of_cons | rewrite elem_of_nil];
  intuition (try discriminate; try congruence).

(** X8.  [init_sensor] of the three-buffer revision returns [-ENODEV]
    without any call to the stack when the sensor is not ready, and 0 in
    every other case, also when [bt_le_adv_start] failed; the first poll
    cycle is scheduled only when the sensor is ready and advertising
    started, so a return value of 0 does not tell that the beacon runs. *)
Theorem three_packet_init_sensor_outcomes (ENODEV : Z) (su : Startup.startup_io)
    (b : ThreePacket.bufs) :
  ENODEV ≠ 0 ->
  let r := ThreePacketStartup.init_sensor ENODEV su b in
  (fst r = 0 <-> Startup.device_ready su = true) /\
  (Startup.schedules_first_cycle (snd r)
   <-> Startup.device_ready su = true /\ Startup.adv_start_rc su = 0) /\
  (Startup.device_ready su = false ->
   r = (- ENODEV, [Startup.SuLog Startup.MsgSensorNotReady])).
Proof.
  intros HE r. subst r. unfold ThreePacketStartup.init_sensor.
  destruct (Startup.device_ready su); simpl.
  - destruct (c_true (Startup.adv_start_rc su)) eqn:Hrc; simpl.
    + apply c_true_true_iff in Hrc. split; [done |]. split; [schedule_in | done].
    + apply c_true_false_iff in Hrc. split; [done |]. split; [schedule_in | done].
  - split; [split; [lia | done] |]. split; [schedule_in | done].
Qed.

(** Sensor ready, advertising refused with -5: the call returns 0 and
    nothing is scheduled. *)
Lemma three_packet_init_sensor_outcomes_witness :
  let su := {| Startup.device_ready := true; Startup.bt_enable_rc := 0;
               Startup.adv_start_rc := -5; Startup.ext_adv_create_rc := 0;
               Startup.ext_adv_set_data_rc := 0; Startup.ext_adv_start_rc := 0 |} in
  fst (ThreePacketStartup.init_sensor 19 su ThreePacket.initial) = 0 /\
  ~ Startup.schedules_first_cycle
      (snd (ThreePacketStartup.init_sensor 19 su ThreePacket.initial)).
Proof.
  intros su.
  destruct (three_packet_init_sensor_outcomes 19 su ThreePacket.initial ltac:(lia))
    as (Hret & Hsched & _).
  split.
  - apply Hret. reflexivity.
  - intros Hs. apply Hsched in Hs. destruct Hs as [_ Hs]. discriminate Hs.
Defined.

(** The combined [init_sensor] schedules the first cycle exactly when every
    step succeeded. *)
Lemma combined_init_sensor_schedules (ENODEV : Z) (su : Startup.startup_io)
    (b : list Z) :
  Startup.schedules_first_cycle (snd (CombinedStartup.init_sensor ENODEV su b))
  <-> Startup.device_ready su = true /\ Startup.ext_adv_create_rc su = 0 /\
      Startup.ext_adv_set_data_rc su = 0 /\ Startup.ext_adv_start_rc su = 0.
Proof.
  unfold CombinedStartup.init_sensor.
  destruct (Startup.device_ready su); simpl; [| schedule_in].
  destruct (c_true (Startup.ext_adv_create_rc su)) eqn:H1; simpl.
  { apply c_true_true_iff in H1. schedule_in. }
  apply c_true_false_iff in H1.
  destruct (c_true (Startup.ext_adv_set_data_rc su)) eqn:H2; simpl.
  { apply c_true_true_iff in H2. schedule_in. }
  apply c_true_false_iff in H2.
  destruct (c_true (Startup.ext_adv_start_rc su)) eqn:H3; simpl.
  { apply c_true_true_iff in H3. schedule_in. }
  apply c_true_false_iff in H3. schedule_in.
Qed.

(** X9.  [init_sensor] of the combined revision returns 0 exactly when the
    sensor is ready and creating the advertising set, setting its data and
    starting it all succeeded, and that is exactly when it schedules the
    first poll cycle; when the sensor is ready it otherwise returns the
    code of the first step that failed. *)
Theorem combined_init_sensor_outcomes (ENODEV : Z) (su : Startup.startup_io)
    (b : list Z) :
  ENODEV ≠ 0 ->
  let r := CombinedStartup.init_sensor ENODEV su b in
  let all_ok :=
    Startup.device_ready su = true /\ Startup.ext_adv_create_rc su = 0 /\
    Startup.ext_adv_set_data_rc su = 0 /\ Startup.ext_adv_start_rc su = 0 in
  (fst r = 0 <-> all_ok) /\
  (Startup.schedules_first_cycle (snd r) <-> all_ok) /\
  (Startup.device_ready su = true ->
   fst r = if c_true (Startup.ext_adv_create_rc su) then Startup.ext_adv_create_rc su
           else if c_true (Startup.ext_adv_set_data_rc su)
                then Startup.ext_adv_set_data_rc su
                else Startup.ext_adv_start_rc su).
Proof.
  intros HE r all_ok. subst r all_ok. unfold CombinedStartup.init_sensor.
  destruct (Startup.device_ready su); simpl.
  - destruct (c_true (Startup.ext_adv_create_rc su)) eqn:H1; simpl.
    { apply c_true_true_iff in H1. split; [tauto |]. split; [schedule_in | done]. }
    apply c_true_false_iff in H1.
    destruct (c_true (Startup.ext_adv_set_data_rc su)) eqn:H2; simpl.
    { apply c_true_true_iff in H2. split; [tauto |]. split; [schedule_in | done]. }
    apply c_true_false_iff in H2.
    destruct (c_true (Startup.ext_adv_start_rc su)) eqn:H3; simpl.
    { apply c_true_true_iff in H3. split; [tauto |]. split; [schedule_in | done]. }
    apply c_true_false_iff in H3.
    split; [tauto |]. split; [schedule_in | congruence].
  - split; [split; [lia | intros [? _]; done] |].
    split; [schedule_in | done].
Qed.

(** Setting the advertising data fails with -12: that code is returned and
    nothing is scheduled. *)
Lemma combined_init_sensor_outcomes_witness :
  let su := {| Startup.device_ready := true; Startup.bt_enable_rc := 0;
               Startup.adv_start_rc := 0; Startup.ext_adv_create_rc := 0;
               Startup.ext_adv_set_data_rc := -12; Startup.ext_adv_start_rc := 0 |} in
  fst (CombinedStartup.init_sensor 19 su Combined.initial) = -12.
Proof.
  intros su.
  destruct (combined_init_sensor_outcomes 19 su Combined.initial ltac:(lia))
    as (_ & _ & Hcode).
  rewrite Hcode; reflexivity.
Defined.

(** X10.  [main] of the work-queue application returns 0 on every path.
    The first poll cycle is scheduled exactly when [bt_enable] succeeded
    and [init_sensor] scheduled it; when [bt_enable] fails, [init_sensor]
    is not called at all.  With the combined [init_sensor] this means: the
    beacon starts exactly when Bluetooth, the sensor and the three
    advertising steps all succeed. *)
Theorem work_queue_main_outcomes (ENODEV : Z) (su : Startup.startup_io)
    (init : Z * list Startup.startup_event) (b : list Z) :
  fst (WorkQueueMain.main su init) = 0 /\
  (Startup.schedules_first_cycle (snd (WorkQueueMain.main su init))
   <-> Startup.bt_enable_rc su = 0 /\ Startup.schedules_first_cycle (snd init)) /\
  (Startup.bt_enable_rc su ≠ 0 ->
   snd (WorkQueueMain.main su init)
   = [Startup.SuBtEnable;
      Startup.SuLog (Startup.MsgBtInitFailed (Startup.bt_enable_rc su))]) /\
  (Startup.schedules_first_cycle
     (snd (WorkQueueMain.main su (CombinedStartup.init_sensor ENODEV su b)))
   <-> Startup.bt_enable_rc su = 0 /\ Startup.device_ready su = true /\
       Startup.ext_adv_create_rc su = 0 /\ Startup.ext_adv_set_data_rc su = 0 /\
       Startup.ext_adv_start_rc su = 0).
Proof.
  assert (Hgen : forall i : Z * list Startup.startup_event,
            fst (WorkQueueMain.main su i) = 0 /\
            (Startup.schedules_first_cycle (snd (WorkQueueMain.main su i))
             <-> Startup.bt_enable_rc su = 0 /\ Startup.schedules_first_cycle (snd i))).
  { intros [err t]. unfold WorkQueueMain.main.
    destruct (c_true (Startup.bt_enable_rc su)) eqn:Hbt; simpl.
    - apply c_true_true_iff in Hbt. split; [done | schedule_in].
    - apply c_true_false_iff in Hbt.
      destruct (c_true err); simpl; (split; [done | schedule_in]). }
  split; [apply Hgen |]. split; [apply Hgen |]. split.
  - intros Hbt. apply c_true_true_iff in Hbt.
    unfold WorkQueueMain.main. rewrite Hbt. reflexivity.
  - pose proof (combined_init_sensor_schedules ENODEV su b) as Hs.
    pose proof (proj2 (Hgen (CombinedStartup.init_sensor ENODEV su b))) as Hm.
    tauto.
Qed.

(** Bluetooth does not come up: [main] returns 0, the sensor is not
    initialised and nothing is scheduled. *)
Lemma work_queue_main_outcomes_witness :
  let su := {| Startup.device_ready := true; Startup.bt_enable_rc := -5;
               Startup.adv_start_rc := 0; Startup.ext_adv_create_rc := 0;
               Startup.ext_adv_set_data_rc := 0; Startup.ext_adv_start_rc := 0 |} in
  WorkQueueMain.main su (CombinedStartup.init_sensor 19 su Combined.initial)
  = (0, [Startup.SuBtEnable; Startup.SuLog (Startup.MsgBtInitFailed (-5))]).
Proof.
  intros su.
  destruct (work_queue_main_outcomes 19 su
              (CombinedStartup.init_sensor 19 su Combined.initial) Combined.initial)
    as (Hret & _ & Htrace & _).
  rewrite (surjective_pairing (WorkQueueMain.main su _)).
  rewrite Hret, Htrace; [reflexivity | simpl; lia].
Defined.

(** ** The endless-loop application as a whole *)

Lemma simple_loop_last_pass_wins (ios : list cycle_io) (io : cycle_io)
    (b : SimpleLoop.bufs) :
  SimpleLoop.wf b ->
  last ios = Some io ->
  final_state (run_cycles SimpleLoop.loop_body ios b) = SimpleLoop.encoded io b.
Proof.
  intros Hwf. revert b Hwf.
  induction ios as [| io1 ios IH]; intros b Hwf Hlast; [discriminate Hlast |].
  rewrite run_cycles_final_state_cons, SimpleLoopFacts.sl_body_final_state.
  destruct ios as [| io2 ios].
  - simpl in Hlast. injection Hlast as ->. reflexivity.
  - rewrite (IH (SimpleLoop.encoded io1 b)).
    + by apply simple_loop_encoded_twice.
    + by apply SimpleLoopFacts.sl_encoded_wf.
    + exact Hlast.
Qed.

(** X11.  [main] of the endless-loop application enters the loop exactly
    when the sensor is ready, [bt_enable] succeeded and [bt_le_adv_start]
    succeeded; otherwise it returns 0 with both buffers untouched and
    without a single call of the loop body.  Once in the loop it does not
    return, whatever the sensor and the stack answer, and after each pass
    the buffers are what the readings of that pass give on the
    initializers' layout. *)
Theorem simple_loop_main_outcomes (su : Startup.startup_io)
    (ios : list cycle_io) (b : SimpleLoop.bufs) :
  SimpleLoop.wf b ->
  let r := SimpleLoopMain.main su ios b in
  let started :=
    Startup.device_ready su = true /\ Startup.bt_enable_rc su = 0 /\
    Startup.adv_start_rc su = 0 in
  (fst (fst r) = None <-> started) /\
  (~ started ->
   fst (fst r) = Some 0 /\ snd (fst r) = b /\
   filter (fun e => is_in_loop e = true) (snd r) = []) /\
  (started -> forall io, last ios = Some io ->
   snd (fst r) = SimpleLoop.encoded io b).
Proof.
  intros Hwf r started. subst r started. unfold SimpleLoopMain.main.
  destruct (Startup.device_ready su); simpl.
  2: { split; [split; [done | intros [? _]; done] |].
       split; [intros _; repeat split | intros [? _]; done]. }
  destruct (c_true (Startup.bt_enable_rc su)) eqn:Hbt; simpl.
  { apply c_true_true_iff in Hbt.
    split; [split; [done | tauto] |].
    split; [intros _; repeat split | tauto]. }
  apply c_true_false_iff in Hbt.
  destruct (c_true (Startup.adv_start_rc su)) eqn:Hadv; simpl.
  { apply c_true_true_iff in Hadv.
    split; [split; [done | tauto] |].
    split; [intros _; repeat split | tauto]. }
  apply c_true_false_iff in Hadv.
  split; [tauto |]. split; [tauto |].
  intros _ io Hlast. by apply simple_loop_last_pass_wins.
Qed.

(** Two passes from the initializers: the placeholders [c4 00], [bf 13] and
    [13 8a 01] are gone and the buffers hold the second pass's values. *)
Lemma simple_loop_main_outcomes_witness :
  let su := {| Startup.device_ready := true; Startup.bt_enable_rc := 0;
               Startup.adv_start_rc := 0; Startup.ext_adv_create_rc := 0;
               Startup.ext_adv_set_data_rc := 0; Startup.ext_adv_start_rc := 0 |} in
  snd (fst (SimpleLoopMain.main su
              [Example.io_with SENSOR_CHAN_AMBIENT_TEMP (SensorValue 0 0);
               Example.io_ok] SimpleLoop.initial))
  = {| SimpleLoop.service_data_temp_hum :=
         [0xD2; 0xFC; 0x40; 0x02; 0xCA; 0x08; 0x03; 0x7C; 0x15];
       SimpleLoop.service_data_press_gas :=
         [0xD2; 0xFC; 0x40; 0x04; 0x21; 0x75; 0x0F] |}.
Proof.
  intros su.
  destruct (simple_loop_main_outcomes su
              [Example.io_with SENSOR_CHAN_AMBIENT_TEMP (SensorValue 0 0);
               Example.io_ok] SimpleLoop.initial) as (_ & _ & Hlast).
  - repeat split.
  - rewrite (Hlast ltac:(repeat split) Example.io_ok eq_refl).
    vm_compute. reflexivity.
Defined.

(** * Further properties of the time application *)

Section TimeReadWrite.
Import TimeApp.
Context {rtc_dev : Type}.
Variable rtc_set_time : rtc_dev -> rtc_time -> Z * rtc_dev.
Variable rtc_get_time : rtc_dev -> Z * rtc_time.

(** X12.  [cts_time_read] never writes the [fractions256] and [reason]
    members: whatever the clock answers they come back as the caller passed
    them in.  When the clock reports a negative code that code is returned
    and the whole struct is untouched; any other code is turned into 0. *)
Theorem cts_time_read_untouched_members (cts0 : bt_cts_time_format) (rtc : rtc_dev) :
  let ret := fst (rtc_get_time rtc) in
  let r := cts_time_read rtc_get_time cts0 rtc in
  fractions256 (snd r) = fractions256 cts0 /\
  reason (snd r) = reason cts0 /\
  (ret < 0 -> r = (ret, cts0)) /\
  (0 <= ret -> fst r = 0).
Proof.
  intros ret r. subst ret r. unfold cts_time_read.
  destruct (rtc_get_time rtc) as [ret tm]. simpl.
  destruct (Z.ltb_spec ret 0) as [Hneg | Hpos]; simpl.
  - repeat split; try done; lia.
  - repeat split; try done; lia.
Qed.

(** X13.  For every clock weekday from -7 upwards, so also for the
    "unknown" value -1, a successful [cts_time_read] returns a weekday in
    1..7, namely [(tm_wday mod 7) + 1]; an unknown weekday is reported as
    7.  Year, month, day, hours, minutes and seconds returned always fit
    their wire fields. *)
Theorem cts_time_read_field_ranges (cts0 : bt_cts_time_format) (rtc : rtc_dev)
    (ret : Z) (tm : rtc_time) :
  rtc_get_time rtc = (ret, tm) -> 0 <= ret ->
  -7 <= tm_wday tm <= 2147483640 ->
  let out := snd (cts_time_read rtc_get_time cts0 rtc) in
  wday out = tm_wday tm mod 7 + 1 /\ 1 <= wday out <= 7 /\
  (tm_wday tm = -1 -> wday out = 7) /\
  uint16_range (year out) /\ uint8_range (mon out) /\ uint8_range (mday out) /\
  uint8_range (hours out) /\ uint8_range (min out) /\ uint8_range (sec out).
Proof.
  clear rtc_set_time. intros Hget Hret Hw out. subst out.
  rewrite (cts_time_read_success rtc_get_time cts0 rtc ret tm Hget Hret). simpl.
  assert (Hwd : to_uint8 (add32 (rem32 (add32 (tm_wday tm) 7) 7) 1)
                = tm_wday tm mod 7 + 1).
  { unfold add32, rem32.
    rewrite (to_int32_id (tm_wday tm + 7)) by (unfold int32_range; lia).
    rewrite (to_int32_id (Z.rem (tm_wday tm + 7) 7)) by (unfold int32_range; quot_lia).
    rewrite to_int32_id by (unfold int32_range; quot_lia).
    rewrite to_uint8_id by (unfold uint8_range; quot_lia).
    quot_lia. }
  rewrite Hwd.
  pose proof (Z.mod_pos_bound (tm_wday tm) 7 ltac:(lia)) as Hm.
  split; [reflexivity |]. split; [lia |].
  split; [intros ->; reflexivity |].
  unfold uint16_range, uint8_range, to_uint16, to_uint8.
  change (2 ^ 16) with 65536. change (2 ^ 8) with 256.
  repeat split;
    match goal with
    | |- 0 <= ?a mod ?n => pose proof (Z.mod_pos_bound a n ltac:(lia)); lia
    | |- ?a mod ?n <= _ => pose proof (Z.mod_pos_bound a n ltac:(lia)); lia
    end.
Qed.

(** X14.  Writing back what was just read sets the clock to the date and
    time it already had: when the clock's reading has a year from 0 to
    65535 (that is [tm_year] from -1900 to 63635), a month number from 0 to
    255 and day, hours, minutes, seconds within 0..255, the
    [struct rtc_time] that [cts_time_write] hands to [rtc_set_time] for the
    result of [cts_time_read] has the same six fields as the reading. *)
Theorem cts_read_write_roundtrip (cts0 : bt_cts_time_format) (rtc : rtc_dev)
    (ret : Z) (tm : rtc_time) :
  rtc_get_time rtc = (ret, tm) -> 0 <= ret ->
  -1900 <= tm_year tm <= 63635 -> -1 <= tm_mon tm <= 254 ->
  uint8_range (tm_mday tm) -> uint8_range (tm_hour tm) ->
  uint8_range (tm_min tm) -> uint8_range (tm_sec tm) ->
  let out := snd (cts_time_read rtc_get_time cts0 rtc) in
  same_datetime (rtc_time_of_cts out) tm /\
  cts_time_write rtc_set_time out rtc = rtc_set_time rtc (rtc_time_of_cts out).
Proof.
  intros Hget Hret Hy Hmo Hd Hh Hmi Hs out. subst out.
  rewrite (cts_time_read_success rtc_get_time cts0 rtc ret tm Hget Hret).
  split; [| reflexivity].
  unfold same_datetime, rtc_time_of_cts. simpl.
  rewrite (to_uint8_id (tm_mday tm) Hd), (to_uint8_id (tm_hour tm) Hh),
    (to_uint8_id (tm_min tm) Hmi), (to_uint8_id (tm_sec tm) Hs).
  repeat split.
  - unfold add32, sub32.
    rewrite (to_int32_id (tm_year tm + 1900)) by (unfold int32_range; lia).
    rewrite to_uint16_id by (unfold uint16_range; lia).
    rewrite to_int32_id by (unfold int32_range; lia). lia.
  - unfold add32, sub32.
    rewrite (to_int32_id (tm_mon tm + 1)) by (unfold int32_range; lia).
    rewrite to_uint8_id by (unfold uint8_range; lia).
    rewrite to_int32_id by (unfold int32_range; lia). lia.
Qed.


End TimeReadWrite.

(** A clock whose weekday is unknown (-1) reads as weekday 7. *)
Lemma cts_time_read_field_ranges_witness :
  let tm := {| TimeApp.tm_sec := 45; TimeApp.tm_min := 30; TimeApp.tm_hour := 14;
               TimeApp.tm_mday := 9; TimeApp.tm_mon := 2; TimeApp.tm_year := 125;
               TimeApp.tm_wday := -1; TimeApp.tm_yday := 0; TimeApp.tm_isdst := 0;
               TimeApp.tm_nsec := 0 |} in
  TimeApp.wday (snd (TimeApp.cts_time_read TimeApp.register_get_time
                       Example.cts_time tm)) = 7.
Proof.
  intros tm.
  destruct (cts_time_read_field_ranges TimeApp.register_get_time Example.cts_time
              tm 0 tm eq_refl ltac:(lia) ltac:(simpl; lia))
    as (_ & _ & Hunknown & _).
  apply Hunknown. reflexivity.
Defined.

(** The reading 2025-03-09 14:30:45 read and written back. *)
Lemma cts_read_write_roundtrip_witness :
  let tm := TimeApp.rtc_time_of_cts Example.cts_time in
  TimeApp.same_datetime
    (TimeApp.rtc_time_of_cts
       (snd (TimeApp.cts_time_read TimeApp.register_get_time Example.cts_time tm)))
    tm.
Proof.
  intros tm.
  refine (proj1 (cts_read_write_roundtrip TimeApp.register_set_time
                   TimeApp.register_get_time Example.cts_time tm 0 tm
                   eq_refl _ _ _ _ _ _ _)).
  all: unfold uint8_range; vm_compute; first [split; discriminate | discriminate].
Defined.


(** ** Connection callbacks *)

Section ConnFacts.
Import TimeConn.

Lemma run_callbacks_cons cb cbs s :
  run_callbacks (cb :: cbs) s
  = (fst (run_callbacks cbs (fst (dispatch cb s))),
     snd (dispatch cb s) ++ snd (run_callbacks cbs (fst (dispatch cb s)))).
Proof.
  simpl. destruct (dispatch cb s) as [s1 t1]. simpl.
  destruct (run_callbacks cbs s1) as [s2 t2]. reflexivity.
Qed.

Lemma submit_count_app t1 t2 :
  submit_count (t1 ++ t2) = (submit_count t1 + submit_count t2)%nat.
Proof. unfold submit_count. rewrite filter_app, length_app. reflexivity. Qed.

Lemma dispatch_submit_count cb s :
  submit_count (snd (dispatch cb s)) = if is_recycled cb then 1%nat else 0%nat.
Proof.
  destruct cb as [err | reason | | enabled]; simpl; unfold connected;
    try destruct (c_true err); reflexivity.
Qed.

(** X16.  Over any sequence of connection and subscription callbacks,
    [adv_work] is submitted once for each [recycled] callback and never by
    another callback: [connected], [disconnected] and [notify_change] do
    not restart advertising themselves. *)
Theorem adv_work_submitted_once_per_recycled (cbs : list bt_callback)
    (s : app_state) :
  submit_count (snd (run_callbacks cbs s))
  = length (filter (fun cb => is_recycled cb = true) cbs).
Proof.
  revert s. induction cbs as [| cb cbs IH]; intros s; [reflexivity |].
  rewrite run_callbacks_cons. cbn [snd].
  rewrite submit_count_app, IH, dispatch_submit_count.
  rewrite filter_cons.
  destruct (is_recycled cb) eqn:Hcb.
  - rewrite decide_True by reflexivity. reflexivity.
  - rewrite decide_False by discriminate. reflexivity.
Qed.

Lemma dispatch_state cb s :
  state (fst (dispatch cb s))
  = Z.lor (state s)
      (if is_connected_ok cb then 1 else if is_disconnected cb then 2 else 0).
Proof.
  destruct cb as [err | reason | | enabled]; simpl.
  - unfold connected. destruct (c_true err); simpl; [by rewrite Z.lor_0_r | reflexivity].
  - reflexivity.
  - by rewrite Z.lor_0_r.
  - by rewrite Z.lor_0_r.
Qed.

(** X17.  The callbacks only ever set bits of [state]: after any sequence
    of callbacks the word is the one before, or-ed with bit 0 when some
    connection was established ([connected] with error 0) and with bit 1
    when some disconnection was reported.  No callback clears a bit, a
    failed connection sets none, and started from 0 the word stays within
    0..3. *)
Theorem state_bits_only_set (cbs : list bt_callback) (s : app_state) :
  state (fst (run_callbacks cbs s)) = Z.lor (state s) (state_bits_of cbs) /\
  (forall n, Z.testbit (state s) n = true ->
             Z.testbit (state (fst (run_callbacks cbs s))) n = true) /\
  0 <= state (fst (run_callbacks cbs app_initial)) <= 3.
Proof.
  assert (Hclosed : forall cbs s,
            state (fst (run_callbacks cbs s)) = Z.lor (state s) (state_bits_of cbs)).
  { clear. intros cbs. induction cbs as [| cb cbs IH]; intros s.
    - simpl. unfold state_bits_of. simpl. by rewrite Z.lor_0_r.
    - rewrite run_callbacks_cons. cbn [fst].
      rewrite IH, dispatch_state, <- Z.lor_assoc. f_equal.
      unfold state_bits_of. cbn [existsb].
      destruct cb as [err | reason | | enabled]; simpl;
        try destruct (c_true err); simpl;
        destruct (existsb is_connected_ok cbs), (existsb is_disconnected cbs);
        reflexivity. }
  split; [apply Hclosed |]. split.
  - intros n Hn. rewrite Hclosed, Z.lor_spec, Hn. reflexivity.
  - rewrite Hclosed. unfold state_bits_of. simpl.
    destruct (existsb is_connected_ok cbs), (existsb is_disconnected cbs);
      vm_compute; split; discriminate.
Qed.

End ConnFacts.

(** ** Starting to advertise the time service *)

(** Clearing a flag that shares no bit with the rest of the word. *)
Lemma clear_flag (x c : Z) :
  Z.land x c = 0 -> Z.land (Z.lor x c) (Z.lnot c) = x.
Proof.
  intros H. apply Z.bits_inj'. intros n Hn.
  rewrite Z.land_spec, Z.lor_spec, Z.lnot_spec by lia.
  assert (Hb : Z.testbit x n && Z.testbit c n = false)
    by (rewrite <- Z.land_spec, H; apply Z.bits_0).
  destruct (Z.testbit x n), (Z.testbit c n); simpl in *; congruence.
Qed.

(** Membership in an explicit list of events, by cases. *)
Ltac member_cases :=
  repeat first [rewrite elem_of_app | rewrite elem_of_cons | rewrite elem_of_nil];
  intuition (try discriminate; try congruence).

(** X18.  Extended-advertising variant of [adv_work_handler], for option
    bits of which the Coded PHY bit is none of the other two: the
    advertising set is first requested with all three options, and only
    when that fails a second time with exactly the extended and connectable
    options.  Advertising data is set and the start is attempted exactly
    when one of the two requests succeeded and setting the data succeeded;
    "successfully started" is printed exactly when the start succeeded
    too. *)
Theorem ext_adv_coded_fallback (EXT_ADV CONN CODED : Z) (io : TimeConn.adv_io) :
  Z.land (Z.lor EXT_ADV CONN) CODED = 0 ->
  let t := TimeConn.adv_work_handler_ext EXT_ADV CONN CODED io in
  let set_created :=
    TimeConn.create_coded_rc io = 0 \/ TimeConn.create_plain_rc io = 0 in
  ext_creates t
  = (if c_true (TimeConn.create_coded_rc io)
     then [Z.lor (Z.lor EXT_ADV CONN) CODED; Z.lor EXT_ADV CONN]
     else [Z.lor (Z.lor EXT_ADV CONN) CODED]) /\
  (TimeConn.TeExtAdvSetData ∈ t <-> set_created) /\
  (TimeConn.TeExtAdvStart ∈ t <-> set_created /\ TimeConn.set_data_rc io = 0) /\
  (TimeConn.TeLog TimeConn.MsgAdvStarted ∈ t
   <-> set_created /\ TimeConn.set_data_rc io = 0 /\ TimeConn.start_rc io = 0).
Proof.
  intros Hdisj t set_created. subst t set_created.
  unfold TimeConn.adv_work_handler_ext, TimeConn.adv_set_data_and_start.
  rewrite (clear_flag _ _ Hdisj).
  destruct (c_true (TimeConn.create_coded_rc io)) eqn:H1;
    [apply c_true_true_iff in H1 | apply c_true_false_iff in H1];
    try (destruct (c_true (TimeConn.create_plain_rc io)) eqn:H2;
         [apply c_true_true_iff in H2 | apply c_true_false_iff in H2]);
    try (destruct (c_true (TimeConn.set_data_rc io)) eqn:H3;
         [apply c_true_true_iff in H3 | apply c_true_false_iff in H3]);
    try (destruct (c_true (TimeConn.start_rc io)) eqn:H4;
         [apply c_true_true_iff in H4 | apply c_true_false_iff in H4]);
    (split; [reflexivity |]); simpl; (split; [| split]); member_cases.
Qed.

(** With the stack's option bits (connectable = bit 0, extended = bit 10,
    coded = bit 12) and a controller without the Coded PHY: the second
    request asks for options 0x401 and advertising is started. *)
Lemma ext_adv_coded_fallback_witness :
  let io := {| TimeConn.create_coded_rc := -5;
               TimeConn.create_plain_rc := 0; TimeConn.set_data_rc := 0;
               TimeConn.start_rc := 0 |} in
  ext_creates (TimeConn.adv_work_handler_ext 1024 1 4096 io) = [0x1401; 0x401] /\
  TimeConn.TeExtAdvStart ∈ TimeConn.adv_work_handler_ext 1024 1 4096 io.
Proof.
  intros io.
  destruct (ext_adv_coded_fallback 1024 1 4096 io eq_refl) as (Hc & _ & Hs & _).
  split; [exact Hc |].
  apply Hs. split; [right; reflexivity | reflexivity].
Defined.

(** X19.  The notification flag follows the subscription only: after any
    sequence of callbacks [cts_ntf_enabled] is the argument of the last
    [notify_change], or what it was when there was none; connecting,
    disconnecting and recycling never change it, and [notify_change] never
    changes the connection bits. *)
Theorem notify_flag_follows_subscription (cbs : list TimeConn.bt_callback)
    (s : TimeConn.app_state) :
  TimeConn.cts_ntf_enabled (fst (TimeConn.run_callbacks cbs s))
  = match last_notify cbs with
    | Some e => e
    | None => TimeConn.cts_ntf_enabled s
    end /\
  (forall e, TimeConn.state (fst (TimeConn.notify_change e s)) = TimeConn.state s).
Proof.
  split; [| reflexivity].
  revert s. induction cbs as [| cb cbs IH]; intros s; [reflexivity |].
  rewrite run_callbacks_cons. cbn [fst]. rewrite IH. simpl.
  destruct (last_notify cbs); [reflexivity |].
  destruct cb as [err | reason | | enabled]; simpl; try reflexivity.
  unfold TimeConn.connected. destruct (c_true err); reflexivity.
Qed.

(** * Range edges of the encoders *)

Lemma to_int16_range x : int16_range (to_int16 x).
Proof.
  unfold int16_range, to_int16, wrap_signed.
  change (2 ^ (16 - 1)) with 32768. change (2 ^ 16) with 65536.
  pose proof (Z.mod_pos_bound (x + 32768) 65536 ltac:(lia)). lia.
Qed.

Lemma to_uint16_range x : uint16_range (to_uint16 x).
Proof.
  unfold uint16_range, to_uint16. change (2 ^ 16) with 65536.
  pose proof (Z.mod_pos_bound x 65536 ltac:(lia)). lia.
Qed.

(** X20.  The encoders do not saturate.  Each 16-bit scaled variable equals
    the value of its formula exactly when that value fits the variable's
    type, and is otherwise that value reduced modulo 65536 into the type's
    range: a temperature of 327.68 degrees is stored as -32768 hundredths,
    a CO2 reading of 65536 as 0. *)
Theorem scaled_exact_iff_in_range (v : sensor_value) :
  (Encode.temp_scaled v = centi v <-> int16_range (centi v)) /\
  (Encode.humidity_scaled v = centi v <-> int16_range (centi v)) /\
  (Encode.voc_scaled v = centi v <-> uint16_range (centi v)) /\
  (Encode.co2_scaled v = co2_units v <-> uint16_range (co2_units v)) /\
  int16_range (Encode.temp_scaled v) /\
  Encode.temp_scaled v mod 65536 = centi v mod 65536 /\
  uint16_range (Encode.co2_scaled v) /\
  Encode.co2_scaled v mod 65536 = co2_units v mod 65536 /\
  Encode.temp_scaled (SensorValue 327 680000) = -32768 /\
  Encode.co2_scaled (SensorValue 65536 0) = 0.
Proof.
  rewrite temp_scaled_spec, humidity_scaled_spec, voc_scaled_spec, co2_scaled_spec.
  assert (Hs : forall x, to_int16 x = x <-> int16_range x).
  { intros x. split; [intros <-; apply to_int16_range | apply to_int16_id]. }
  assert (Hu : forall x, to_uint16 x = x <-> uint16_range x).
  { intros x. split; [intros <-; apply to_uint16_range | apply to_uint16_id]. }
  split; [apply Hs |]. split; [apply Hs |]. split; [apply Hu |]. split; [apply Hu |].
  split; [apply to_int16_range |]. split; [apply to_int16_cong |].
  split; [apply to_uint16_range |]. split; [apply to_uint16_cong |].
  split; reflexivity.
Qed.

(** X21.  Pressure in the endless-loop revision: for a non-negative integer
    part up to 2147482 and a fraction below one unit the value is exactly
    [i*1000 + f/10000]; the fraction contributes its first two decimal
    digits only, so the last three digits of the value never exceed 099,
    and readings whose fractions agree in the first two digits are sent
    alike. *)
Theorem simple_loop_pressure_digits (press : sensor_value) :
  0 <= val1 press <= 2147482 -> 0 <= val2 press < 1000000 ->
  Encode.pressure_scaled_loop press = val1 press * 1000 + val2 press / 10000 /\
  Encode.pressure_scaled_loop press mod 1000 = val2 press / 10000 /\
  Encode.pressure_scaled_loop press mod 1000 <= 99 /\
  (forall f', 0 <= f' < 1000000 -> f' / 10000 = val2 press / 10000 ->
     Encode.pressure_scaled_loop (SensorValue (val1 press) f')
     = Encode.pressure_scaled_loop press).
Proof.
  intros Hi Hf.
  assert (Hexact : forall f, 0 <= f < 1000000 ->
            Encode.pressure_scaled_loop (SensorValue (val1 press) f)
            = val1 press * 1000 + f / 10000).
  { intros f Hf'. unfold Encode.pressure_scaled_loop, add32, mul32, div32. simpl.
    rewrite (to_int32_id (val1 press * 1000)) by (unfold int32_range; lia).
    rewrite (to_int32_id (f ÷ 10000)) by (unfold int32_range; quot_lia).
    rewrite to_int32_id by (unfold int32_range; quot_lia).
    quot_lia. }
  assert (Hself : Encode.pressure_scaled_loop press
                  = val1 press * 1000 + val2 press / 10000).
  { rewrite <- (Hexact (val2 press) Hf). by destruct press. }
  split; [exact Hself |].
  split; [rewrite Hself; quot_lia |].
  split; [rewrite Hself; quot_lia |].
  intros f' Hf' Heq. rewrite (Hexact f' Hf'), Hself, Heq. reflexivity.
Qed.

(** 101.325 kPa and 101.329 kPa are both sent as 101032. *)
Lemma simple_loop_pressure_digits_witness :
  Encode.pressure_scaled_loop (SensorValue 101 325000) = 101032 /\
  Encode.pressure_scaled_loop (SensorValue 101 329999)
  = Encode.pressure_scaled_loop (SensorValue 101 325000).
Proof.
  destruct (simple_loop_pressure_digits (SensorValue 101 325000)
              ltac:(simpl; lia) ltac:(simpl; lia)) as (Hexact & _ & _ & Hsame).
  split.
  - rewrite Hexact. reflexivity.
  - apply (Hsame 329999); [lia | reflexivity].
Defined.
